(** * pg-lizard: the pgmetrics sender ([scripts/sendPgmetrics.ts])

    A shallow embedding of the sender script and the properties its
    specification states about it.

    Conventions of the embedding.
    - Text (URLs, header values, environment values, diagnostics) is a
      [string]; the character-level helpers ([trim], [toLowerCase]) act on
      the ASCII range.
    - JavaScript numbers that the script handles are millisecond time stamps,
      durations, byte counts and HTTP statuses: they are integers ([Z]), with
      [NaN] kept apart ([jsnum]) because coercions can produce it.
    - The decoded content of the snapshot file is a list of Unicode scalar
      values; the file itself is a list of bytes.
    - Effects (network, clock, file system, subprocess, timers, console) are
      threaded through a state-and-exception monad [M] over a [world]; the
      answers of the outside world come from a [Platform] record. *)

From Stdlib Require Import ZArith Lia String Ascii List Strings.Byte DecimalString.
From stdpp Require Import base gmap strings list.

Set Warnings "-register-all".
Open Scope string_scope.
Open Scope Z_scope.

(* ===================================================================== *)
(** ** Text helpers: the String.prototype methods the script calls        *)
(* ===================================================================== *)

Module Text.

(** White space removed by [String.prototype.trim] (ASCII range):
    TAB, LF, VT, FF, CR and SPACE. *)
Definition is_ws (c : ascii) : bool :=
  let n := nat_of_ascii c in
  ((9 <=? n)%nat && (n <=? 13)%nat) || (n =? 32)%nat.

Fixpoint trimStart (s : string) : string :=
  match s with
  | EmptyString => EmptyString
  | String c r => if is_ws c then trimStart r else s
  end.

Definition is_empty (s : string) : bool :=
  match s with EmptyString => true | _ => false end.

Fixpoint trimEnd (s : string) : string :=
  match s with
  | EmptyString => EmptyString
  | String c r =>
      let r' := trimEnd r in
      if is_ws c && is_empty r' then EmptyString else String c r'
  end.

(** [s.trim()] *)
Definition trim (s : string) : string := trimEnd (trimStart s).

Definition lower_ascii (c : ascii) : ascii :=
  let n := nat_of_ascii c in
  if ((65 <=? n)%nat && (n <=? 90)%nat) then ascii_of_nat (n + 32) else c.

(** [s.toLowerCase()] *)
Fixpoint toLowerCase (s : string) : string :=
  match s with
  | EmptyString => EmptyString
  | String c r => String (lower_ascii c) (toLowerCase r)
  end.

(** [s.split(sep)] for a one-character separator: never the empty list. *)
Fixpoint split (sep : ascii) (s : string) : list string :=
  match s with
  | EmptyString => [EmptyString]
  | String c r =>
      if Ascii.eqb c sep then EmptyString :: split sep r
      else match split sep r with
           | h :: t => String c h :: t
           | [] => [String c EmptyString]
           end
  end.

(** [s.substring(1)] *)
Definition substring1 (s : string) : string :=
  match s with
  | EmptyString => EmptyString
  | String _ r => r
  end.

(** Truthiness of a string: non-empty. *)
Definition truthy (s : string) : bool := negb (is_empty s).

(** [a || b] on a possibly-undefined string followed by a default. *)
Definition or_else (a : option string) (b : string) : string :=
  match a with
  | Some s => if truthy s then s else b
  | None => b
  end.

(** [n.toString()] of an integer. *)
Definition Z_to_string (n : Z) : string :=
  NilEmpty.string_of_int (Z.to_int n).

End Text.

(* ===================================================================== *)
(** ** JavaScript values the script inspects                              *)
(* ===================================================================== *)

(** A number, or NaN. *)
Inductive jsnum : Type :=
| Num (n : Z)
| NaN.

(** A value produced by [JSON.parse] / [response.json()]. *)
Inductive JSON : Type :=
| JNull
| JBool (b : bool)
| JNum (n : Z)
| JStr (s : string)
| JArr (items : list JSON)
| JObj (props : list (string * JSON)).

(** An exception value. Everything the modelled code can throw is an
    [Error] instance, identified by its [message]. *)
Record JsError : Type := MkError { message : string }.

(** Own-property lookup in an object literal. *)
Fixpoint assoc (k : string) (props : list (string * JSON)) : option JSON :=
  match props with
  | [] => None
  | (k', v) :: rest => if String.eqb k k' then Some v else assoc k rest
  end.

(** Truthiness of a possibly-undefined value ([None] is [undefined]). *)
Definition truthy (v : option JSON) : bool :=
  match v with
  | None => false
  | Some JNull => false
  | Some (JBool b) => b
  | Some (JNum n) => negb (n =? 0)
  | Some (JStr s) => Text.truthy s
  | Some (JArr _) => true
  | Some (JObj _) => true
  end.

(** [a ?? b]: the default replaces [undefined] and [null] only. *)
Definition nullish_or (v : option JSON) (d : JSON) : JSON :=
  match v with
  | None => d
  | Some JNull => d
  | Some x => x
  end.

(** [Math.max(0, x)] *)
Definition Math_max0 (x : jsnum) : jsnum :=
  match x with
  | Num n => Num (Z.max 0 n)
  | NaN => NaN
  end.

(** [x - n] for an integer [n]. *)
Definition jsnum_sub (x : jsnum) (n : Z) : jsnum :=
  match x with
  | Num a => Num (a - n)
  | NaN => NaN
  end.

(** [response.ok] *)
Definition status_ok (status : Z) : bool := (200 <=? status) && (status <=? 299).

(* ===================================================================== *)
(** ** Configuration: lines 7-42 of the script                            *)
(* ===================================================================== *)

Module Config.

(** [process.env.K ?? d] *)
Definition env_or (env : gmap string string) (k d : string) : string :=
  match env !! k with
  | Some v => v
  | None => d
  end.

Definition TEST_MODE (env : gmap string string) (argv : list string) : bool :=
  bool_decide (env !! "TEST_MODE" = Some "1")
  || bool_decide (env !! "TEST_MODE" = Some "true")
  || existsb (String.eqb "--test") argv.

(** [process.env.SERVER_ID ?? process.argv[2]] *)
Definition SERVER_ID (env : gmap string string) (argv : list string) : option string :=
  match env !! "SERVER_ID" with
  | Some v => Some v
  | None => argv !! 2%nat
  end.

Definition API_BASE_URL env := env_or env "API_BASE_URL" "https://metrics.ggpanel.site".
Definition PGPASSWORD env := env_or env "PG_PASSWORD" "postgres".
Definition PGUSER env := env_or env "PG_USER" "postgres".
Definition PGHOST env := env_or env "PG_HOST" "/var/run/postgresql".
Definition PGPORT env := env_or env "PG_PORT" "5432".
Definition PG_DATABASES env :=
  Text.toLowerCase (Text.trim (env_or env "PG_DATABASES" "all")).
Definition ALL_DBS env :=
  String.eqb (PG_DATABASES env) "all" || String.eqb (PG_DATABASES env) "".
Definition PG_TIMEOUT env := env_or env "PG_TIMEOUT" "60".
Definition PG_OMIT env := env_or env "PG_OMIT" "log".
Definition PG_SQL_LENGTH env := env_or env "PG_SQL_LENGTH" "10000".
Definition PG_STATEMENTS_LIMIT env := env_or env "PG_STATEMENTS_LIMIT" "10000".

(** The module-level constants, once computed. *)
Record config : Type := MkConfig {
  cfg_env : gmap string string;      (* process.env, spread into the child's *)
  cfg_TEST_MODE : bool;
  cfg_API_BASE_URL : string;
  cfg_PGPASSWORD : string;
  cfg_PGUSER : string;
  cfg_PGHOST : string;
  cfg_PGPORT : string;
  cfg_PG_DATABASES : string;
  cfg_ALL_DBS : bool;
  cfg_PG_TIMEOUT : string;
  cfg_PG_OMIT : string;
  cfg_PG_SQL_LENGTH : string;
  cfg_PG_STATEMENTS_LIMIT : string;
  cfg_serverId : string;
}.

Definition load (env : gmap string string) (argv : list string) : config :=
  {| cfg_env := env;
     cfg_TEST_MODE := TEST_MODE env argv;
     cfg_API_BASE_URL := API_BASE_URL env;
     cfg_PGPASSWORD := PGPASSWORD env;
     cfg_PGUSER := PGUSER env;
     cfg_PGHOST := PGHOST env;
     cfg_PGPORT := PGPORT env;
     cfg_PG_DATABASES := PG_DATABASES env;
     cfg_ALL_DBS := ALL_DBS env;
     cfg_PG_TIMEOUT := PG_TIMEOUT env;
     cfg_PG_OMIT := PG_OMIT env;
     cfg_PG_SQL_LENGTH := PG_SQL_LENGTH env;
     cfg_PG_STATEMENTS_LIMIT := PG_STATEMENTS_LIMIT env;
     (* const serverId: string = SERVER_ID ?? 'test' *)
     cfg_serverId := match SERVER_ID env argv with Some v => v | None => "test" end |}.

(** What the top level of the module does before any collection. *)
Inductive startup : Type :=
| Exit (code : Z) (stderr_line : string)   (* console.error; process.exit(code) *)
| RunTestMode (c : config)                 (* the TEST_MODE block, lines 44-77 *)
| RunSendLoop (c : config).                (* banner, then loop() *)

Definition truthy_opt (s : option string) : bool :=
  match s with
  | Some v => Text.truthy v
  | None => false
  end.

Definition start (env : gmap string string) (argv : list string) : startup :=
  if negb (TEST_MODE env argv) && negb (truthy_opt (SERVER_ID env argv)) then
    Exit 1 "❌ Set SERVER_ID in .env or run: bun run sendPgmetrics.ts <server_id>"
  else if negb (Text.truthy (PGPASSWORD env))
          && negb (String.eqb (PGHOST env) "/var/run/postgresql") then
    Exit 1 "❌ Set PGPASSWORD in .env when using remote host"
  else if TEST_MODE env argv then RunTestMode (load env argv)
  else RunSendLoop (load env argv).

End Config.

Export Config.

(* ===================================================================== *)
(** ** UTF-8: [readFileSync(path, 'utf-8')] and [Buffer.byteLength]       *)
(* ===================================================================== *)

Module Utf8.

Definition byteZ (b : byte) : Z := Z.of_N (Byte.to_N b).

Definition between (lo hi x : Z) : bool := (lo <=? x) && (x <=? hi).

(** U+FFFD, substituted for every ill-formed subsequence. *)
Definition REPLACEMENT : Z := 0xFFFD.

(** Bounds of the second byte, which depend on the lead byte. *)
Definition lo2 (x0 : Z) : Z :=
  if x0 =? 0xE0 then 0xA0 else if x0 =? 0xF0 then 0x90 else 0x80.
Definition hi2 (x0 : Z) : Z :=
  if x0 =? 0xED then 0x9F else if x0 =? 0xF4 then 0x8F else 0xBF.

(** Decoding of a buffer to a string, as [buf.toString('utf-8')] does it:
    each maximal ill-formed subsequence becomes one U+FFFD, and a leading
    byte-order mark is kept. The result is the list of scalar values. *)
Fixpoint decode (bs : list byte) : list Z :=
  match bs with
  | [] => []
  | b0 :: r0 =>
      let x0 := byteZ b0 in
      if x0 <=? 0x7F then x0 :: decode r0
      else if between 0xC2 0xDF x0 then
        match r0 with
        | [] => [REPLACEMENT]
        | b1 :: r1 =>
            if between 0x80 0xBF (byteZ b1)
            then ((x0 - 0xC0) * 64 + (byteZ b1 - 0x80)) :: decode r1
            else REPLACEMENT :: decode r0
        end
      else if between 0xE0 0xEF x0 then
        match r0 with
        | [] => [REPLACEMENT]
        | b1 :: r1 =>
            if between (lo2 x0) (hi2 x0) (byteZ b1) then
              match r1 with
              | [] => [REPLACEMENT]
              | b2 :: r2 =>
                  if between 0x80 0xBF (byteZ b2)
                  then ((x0 - 0xE0) * 4096 + (byteZ b1 - 0x80) * 64
                        + (byteZ b2 - 0x80)) :: decode r2
                  else REPLACEMENT :: decode r1
              end
            else REPLACEMENT :: decode r0
        end
      else if between 0xF0 0xF4 x0 then
        match r0 with
        | [] => [REPLACEMENT]
        | b1 :: r1 =>
            if between (lo2 x0) (hi2 x0) (byteZ b1) then
              match r1 with
              | [] => [REPLACEMENT]
              | b2 :: r2 =>
                  if between 0x80 0xBF (byteZ b2) then
                    match r2 with
                    | [] => [REPLACEMENT]
                    | b3 :: r3 =>
                        if between 0x80 0xBF (byteZ b3)
                        then ((x0 - 0xF0) * 262144 + (byteZ b1 - 0x80) * 4096
                              + (byteZ b2 - 0x80) * 64 + (byteZ b3 - 0x80))
                             :: decode r3
                        else REPLACEMENT :: decode r2
                    end
                  else REPLACEMENT :: decode r1
              end
            else REPLACEMENT :: decode r0
        end
      else REPLACEMENT :: decode r0
  end.

(** Number of bytes of one scalar value in UTF-8. *)
Definition encoded_length (cp : Z) : Z :=
  if cp <=? 0x7F then 1
  else if cp <=? 0x7FF then 2
  else if cp <=? 0xFFFF then 3
  else 4.

(** [Buffer.byteLength(s)] (the default encoding is UTF-8). *)
Fixpoint byteLength (s : list Z) : Z :=
  match s with
  | [] => 0
  | cp :: r => encoded_length cp + byteLength r
  end.

(** Well-formed UTF-8 (Unicode, table 3-7): the buffers on which decoding
    substitutes nothing. *)
Fixpoint well_formed (bs : list byte) : bool :=
  match bs with
  | [] => true
  | b0 :: r0 =>
      let x0 := byteZ b0 in
      if x0 <=? 0x7F then well_formed r0
      else if between 0xC2 0xDF x0 then
        match r0 with
        | b1 :: r1 => between 0x80 0xBF (byteZ b1) && well_formed r1
        | _ => false
        end
      else if between 0xE0 0xEF x0 then
        match r0 with
        | b1 :: b2 :: r2 =>
            between (lo2 x0) (hi2 x0) (byteZ b1)
            && between 0x80 0xBF (byteZ b2) && well_formed r2
        | _ => false
        end
      else if between 0xF0 0xF4 x0 then
        match r0 with
        | b1 :: b2 :: b3 :: r3 =>
            between (lo2 x0) (hi2 x0) (byteZ b1)
            && between 0x80 0xBF (byteZ b2)
            && between 0x80 0xBF (byteZ b3) && well_formed r3
        | _ => false
        end
      else false
  end.

End Utf8.

(* ===================================================================== *)
(** ** The outside world                                                  *)
(* ===================================================================== *)

(** How a computation or a promise ends: with a value or with a thrown
    error (a rejection). *)
Inductive outcome (A : Type) : Type :=
| Return (a : A)
| Throw (e : JsError).
Arguments Return {A} a.
Arguments Throw {A} e.

(** A call of [fetch(url, { method, headers, body })]. *)
Record request : Type := MkRequest {
  req_url : string;
  req_method : string;
  req_headers : list (string * string);
  req_body : option (list Z);
}.

(** What a [fetch] promise settles to. [json] is how [response.json()]
    settles: it rejects when the body is not JSON. *)
Inductive fetch_result : Type :=
| NetworkFailure (e : JsError)
| Response (status : Z) (json : outcome JSON).

(** [await promise.catch(() => d)] *)
Definition catch_default (json : outcome JSON) (d : JSON) : JSON :=
  match json with
  | Return v => v
  | Throw _ => d
  end.

(** The object returned by [spawnSync]: [status] is [null] when the child
    did not exit by itself, [stderr] is [null] when it was never started,
    [error] is set when it could not be launched. *)
Record spawn_result : Type := MkSpawn {
  sp_status : option Z;
  sp_stderr : option string;
  sp_error : option JsError;
}.

(** Pieces of a console line, in order: the arguments of [console.log] and,
    inside a template literal, its fragments and interpolated values. *)
Inductive logpart : Type :=
| Txt (s : string)
| Val (v : JSON)                (* an interpolated JSON value *)
| Flag (b : bool)               (* a boolean argument *)
| CeilSeconds (ms : jsnum)      (* Math.ceil(ms / 1000) *)
| SizeMB (bytes : Z)            (* (bytes / 1024 / 1024).toFixed(2) *)
| LocaleDate (ms : Z).          (* new Date().toLocaleString() *)

(** Observable actions, in the order the script performs them. *)
Inductive event : Type :=
| EFetch (r : request)
| ESetTimeout (ms : jsnum)      (* await new Promise(r => setTimeout(r, ms)) *)
| ELog (parts : list logpart)
| ESpawn (file : string) (args : list string) (env : gmap string string)
| EReadFile (path : string)
| EUnlink (path : string).

(** The file system, a step counter that indexes the answers of the outside
    world, and the actions performed so far. *)
Record world : Type := MkWorld {
  fs : gmap string (list byte);
  tick : nat;
  trace : list event;
}.

(** The engine and the environment the script runs against. *)
Record Platform : Type := MkPlatform {
  (* JSON.parse: None is a SyntaxError *)
  JSON_parse : string -> option JSON;
  (* ToNumber on a string *)
  StringToNumber : string -> jsnum;
  (* the message of the TypeError of reading property [k] of null *)
  null_property_message : string -> string;
  (* os.tmpdir() and path.join *)
  tmpdir : string;
  join : string -> string -> string;
  (* the answer to the fetch issued at a given step *)
  fetch_answer : nat -> request -> fetch_result;
  (* the run of the child process started at a given step: its result and
     what it leaves on disk *)
  spawn_effect : nat -> list string -> gmap string string ->
                 gmap string (list byte) -> spawn_result * gmap string (list byte);
  (* Date.now() at a given step *)
  Date_now : nat -> Z;
}.

(* ===================================================================== *)
(** ** The monad of the script: state, trace and exceptions               *)
(* ===================================================================== *)

Definition M (A : Type) : Type := world -> outcome A * world.

Definition ret {A} (a : A) : M A := fun w => (Return a, w).

Definition throw {A} (e : JsError) : M A := fun w => (Throw e, w).

Definition bind {A B} (m : M A) (k : A -> M B) : M B :=
  fun w =>
    match m w with
    | (Return a, w') => k a w'
    | (Throw e, w') => (Throw e, w')
    end.

(** [try { m } catch (err) { h err }] *)
Definition try_catch {A} (m : M A) (h : JsError -> M A) : M A :=
  fun w =>
    match m w with
    | (Return a, w') => (Return a, w')
    | (Throw e, w') => h e w'
    end.

Notation "'let*' x ':=' c 'in' k" := (bind c (fun x => k))
  (at level 10, x name, c at level 100, k at level 200).
Notation "c ';;' k" := (bind c (fun _ => k))
  (at level 100, k at level 200, right associativity).

(** One action: it is recorded and the step counter advances. *)
Definition emit (e : event) : M unit :=
  fun w => (Return tt, {| fs := fs w; tick := S (tick w); trace := trace w ++ [e] |}).

Definition console_log (parts : list logpart) : M unit := emit (ELog parts).

(** [await new Promise((r) => setTimeout(r, ms))] *)
Definition sleep (ms : jsnum) : M unit := emit (ESetTimeout ms).

Section Primitives.

Variable P : Platform.

(** [await fetch(...)]: a rejected promise is a thrown error. *)
Definition fetch (r : request) : M (Z * outcome JSON) :=
  fun w =>
    let w' := {| fs := fs w; tick := S (tick w); trace := trace w ++ [EFetch r] |} in
    match fetch_answer P (tick w) r with
    | NetworkFailure e => (Throw e, w')
    | Response status json => (Return (status, json), w')
    end.

(** [Date.now()] *)
Definition now : M Z :=
  fun w => (Return (Date_now P (tick w)),
            {| fs := fs w; tick := S (tick w); trace := trace w |}).

(** [readFileSync(path, 'utf-8')]; the failure modelled is that of a
    missing file. *)
Definition readFileSync (path : string) : M (list Z) :=
  fun w =>
    let w' := {| fs := fs w; tick := S (tick w); trace := trace w ++ [EReadFile path] |} in
    match fs w !! path with
    | Some bytes => (Return (Utf8.decode bytes), w')
    | None =>
        (Throw (MkError ("ENOENT: no such file or directory, open '" ++ path ++ "'")), w')
    end.

(** [unlinkSync(path)]; the failure modelled is that of a missing file. *)
Definition unlinkSync (path : string) : M unit :=
  fun w =>
    match fs w !! path with
    | Some _ =>
        (Return tt, {| fs := delete path (fs w); tick := S (tick w);
                       trace := trace w ++ [EUnlink path] |})
    | None =>
        (Throw (MkError ("ENOENT: no such file or directory, unlink '" ++ path ++ "'")),
         {| fs := fs w; tick := S (tick w); trace := trace w ++ [EUnlink path] |})
    end.

(** [spawnSync(file, args, { env, ... })] *)
Definition spawnSync (file : string) (args : list string) (env : gmap string string)
  : M spawn_result :=
  fun w =>
    let '(r, fs') := spawn_effect P (tick w) args env (fs w) in
    (Return r, {| fs := fs'; tick := S (tick w);
                  trace := trace w ++ [ESpawn file args env] |}).

(** [data.k]: reading a property of [null] throws a TypeError; any other
    value without that own property gives [undefined]. *)
Definition get_prop (data : JSON) (k : string) : M (option JSON) :=
  match data with
  | JNull => throw (MkError (null_property_message P k))
  | JObj props => ret (assoc k props)
  | _ => ret None
  end.

(** [data?.k] *)
Definition get_prop_opt (data : JSON) (k : string) : option JSON :=
  match data with
  | JObj props => assoc k props
  | _ => None
  end.

(** ToString of a JSON value. Integers are printed in plain decimal. *)
Fixpoint ToString (v : JSON) : string :=
  match v with
  | JNull => "null"
  | JBool true => "true"
  | JBool false => "false"
  | JNum n => Text.Z_to_string n
  | JStr s => s
  | JArr items =>
      String.concat ","
        (map (fun x => match x with JNull => "" | _ => ToString x end) items)
  | JObj _ => "[object Object]"
  end.

(** ToNumber of a JSON value. *)
Definition ToNumber (v : JSON) : jsnum :=
  match v with
  | JNull => Num 0
  | JBool true => Num 1
  | JBool false => Num 0
  | JNum n => Num n
  | JStr s => StringToNumber P s
  | JArr _ => StringToNumber P (ToString v)
  | JObj _ => NaN
  end.

End Primitives.

(* ===================================================================== *)
(** ** URLs                                                               *)
(* ===================================================================== *)

Module Url.

Definition is_scheme_char (c : ascii) : bool :=
  let n := nat_of_ascii (Text.lower_ascii c) in
  ((97 <=? n)%nat && (n <=? 122)%nat) || ((48 <=? n)%nat && (n <=? 57)%nat)
  || (n =? 43)%nat || (n =? 45)%nat || (n =? 46)%nat.

(** The text before the first character satisfying [stop]. *)
Fixpoint take_until (stop : ascii -> bool) (s : string) : string :=
  match s with
  | EmptyString => EmptyString
  | String c r => if stop c then EmptyString else String c (take_until stop r)
  end.

(** The text from the first character satisfying [stop] on. *)
Fixpoint drop_until (stop : ascii -> bool) (s : string) : string :=
  match s with
  | EmptyString => EmptyString
  | String c r => if stop c then s else drop_until stop r
  end.

Definition is_colon (c : ascii) : bool := Ascii.eqb c ":".
Definition ends_authority (c : ascii) : bool :=
  Ascii.eqb c "/" || Ascii.eqb c "?" || Ascii.eqb c "#".
Definition ends_path (c : ascii) : bool := Ascii.eqb c "?" || Ascii.eqb c "#".

Fixpoint all_chars (p : ascii -> bool) (s : string) : bool :=
  match s with
  | EmptyString => true
  | String c r => p c && all_chars p r
  end.

(** [new URL(url).pathname] for an absolute URL with an authority,
    [scheme://authority/path?query#fragment], whose path the parser leaves
    as it is (no dot segments, nothing to percent-encode). [None] is the
    TypeError of a string that is not such a URL. *)
Definition pathname (url : string) : option string :=
  let scheme := take_until is_colon url in
  match drop_until is_colon url with
  | String ":" (String "/" (String "/" rest)) =>
      let authority := take_until ends_authority rest in
      let path := take_until ends_path (drop_until ends_authority rest) in
      if Text.is_empty scheme || negb (all_chars is_scheme_char scheme)
         || Text.is_empty authority
      then None
      else Some (match path with
                 | String "/" _ => path
                 | _ => "/"
                 end)
  | _ => None
  end.

End Url.

(** [pathname.substring(1).split('.')[0] ?? ''], line 187. *)
Definition finishedUpload_key (pathname : string) : string :=
  match Text.split "." (Text.substring1 pathname) !! 0%nat with
  | Some k => k
  | None => ""
  end.

(** [url.split('/')[2]?.split('.')[0] ?? ''], line 188. *)
Definition finishedUpload_bucket (url : string) : string :=
  match Text.split "/" url !! 2%nat with
  | Some host =>
      match Text.split "." host !! 0%nat with
      | Some b => b
      | None => ""
      end
  | None => ""
  end.

(** [args.indexOf(x)] *)
Fixpoint indexOf (x : string) (args : list string) : option nat :=
  match args with
  | [] => None
  | a :: rest => if String.eqb a x then Some 0%nat else S <$> indexOf x rest
  end.

(** [args.splice(start, 0, x)] for [0 <= start]. *)
Definition splice_insert (start : nat) (x : string) (args : list string) : list string :=
  take start args ++ x :: drop start args.

(* ===================================================================== *)
(** ** The admission check and the upload handshake (lines 85-201)        *)
(* ===================================================================== *)

Section Sender.

Variable P : Platform.
Variable cfg : config.

Definition get (url : string) (headers : list (string * string)) : request :=
  {| req_url := url; req_method := "GET"; req_headers := headers; req_body := None |}.

(** The [catch (err)] block of [shouldSend], lines 119-135. *)
Definition shouldSend_catch (err : JsError) : M bool :=
  let errorMessage := message err in
  let* waitTime :=
    match JSON_parse P errorMessage with
    | Some parsed =>
        if truthy (get_prop_opt parsed "nextCollectionAt") then
          let nextCollectionAt :=
            match get_prop_opt parsed "nextCollectionAt" with
            | Some v => ToNumber P v
            | None => NaN
            end in
          let* t := now P in
          let waitTime := Math_max0 (jsnum_sub nextCollectionAt t) in
          console_log [Txt "⛔ Pre-check failed: ";
                       Val (nullish_or (get_prop_opt parsed "error")
                                       (JStr "Rate limit exceeded"));
                       Txt ", waiting ... "; CeilSeconds waitTime; Txt "s"];;
          ret waitTime
        else
          console_log [Txt "⛔ Pre-check failed: "; Txt errorMessage;
                       Txt ", waiting ... 2.5s"];;
          ret (Num 2500)
    | None =>
        console_log [Txt "⛔ Pre-check failed: "; Txt errorMessage;
                     Txt ", waiting ... 2.5s"];;
        ret (Num 2500)
    end in
  sleep waitTime;;
  ret false.

(** The [try] block of [shouldSend], lines 86-118. *)
Definition shouldSend_try : M bool :=
  let* response :=
    fetch P (get (cfg_API_BASE_URL cfg ++ "/request-upload")
                 [("x-server-id", cfg_serverId cfg)]) in
  let '(status, json) := response in
  if status =? 403 then
    let data := catch_default json (JObj [("error", JStr "Forbidden")]) in
    let* r := get_prop P data "reason" in
    let reason := if truthy r
                  then [Txt " ("; Val (default JNull r); Txt ")"]
                  else [Txt ""] in
    let* e := get_prop P data "error" in
    console_log ([Txt "❌ Pre-check failed: "; Val (nullish_or e (JStr "Forbidden"))]
                 ++ reason);;
    console_log [Txt "⏸️  Upload blocked - user account issue. Waiting 30s before retry..."];;
    sleep (Num 30000);;
    ret false
  else if status =? 404 then
    let data := catch_default json (JObj [("error", JStr "User not found")]) in
    let* e := get_prop P data "error" in
    console_log [Txt "❌ Pre-check failed: "; Val (nullish_or e (JStr "User not found"))];;
    console_log [Txt "⏸️  Upload blocked - user not found. Waiting 30s before retry..."];;
    sleep (Num 30000);;
    ret false
  else if status =? 429 then
    let data := catch_default json (JObj []) in
    let* n := get_prop P data "nextCollectionAt" in
    let* waitTime :=
      if truthy n then
        let* t := now P in
        ret (Math_max0 (jsnum_sub (ToNumber P (default JNull n)) t))
      else ret (Num 2500) in
    console_log [Txt "⛔ Pre-check failed: Rate limit exceeded, waiting ... ";
                 CeilSeconds waitTime; Txt "s"];;
    sleep waitTime;;
    ret false
  else if negb (status_ok status) then
    let http := "HTTP " ++ Text.Z_to_string status in
    let data := catch_default json (JObj [("error", JStr http)]) in
    let* e := get_prop P data "error" in
    console_log [Txt "⛔ Pre-check failed: "; Val (nullish_or e (JStr http));
                 Txt ", waiting ... 2.5s"];;
    sleep (Num 2500);;
    ret false
  else ret true.

Definition shouldSend : M bool := try_catch shouldSend_try shouldSend_catch.

Definition log_failure (what : string) (err : JsError) : M unit :=
  console_log [Txt what; Txt (message err)].

(** [getUploadUrl]; the result [None] is [false]. *)
Definition getUploadUrl (size : Z) : M (option JSON) :=
  try_catch
    (let* response :=
       fetch P (get (cfg_API_BASE_URL cfg ++ "/request-upload-url")
                    [("x-server-id", cfg_serverId cfg);
                     ("x-content-length", Text.Z_to_string size)]) in
     let '(status, json) := response in
     if status =? 403 then
       let data := catch_default json (JObj [("error", JStr "Forbidden")]) in
       let* r := get_prop P data "reason" in
       let reason := if truthy r
                     then [Txt " ("; Val (default JNull r); Txt ")"]
                     else [Txt ""] in
       let* e := get_prop P data "error" in
       console_log ([Txt "❌ Get upload url failed: ";
                     Val (nullish_or e (JStr "Forbidden"))] ++ reason);;
       ret None
     else if status =? 404 then
       let data := catch_default json (JObj [("error", JStr "User not found")]) in
       let* e := get_prop P data "error" in
       console_log [Txt "❌ Get upload url failed: ";
                    Val (nullish_or e (JStr "User not found"))];;
       ret None
     else if negb (status_ok status) then
       let http := "HTTP " ++ Text.Z_to_string status in
       let data := catch_default json (JObj [("error", JStr http)]) in
       let* e := get_prop P data "error" in
       console_log [Txt "⛔ Get upload url failed: "; Val (nullish_or e (JStr http))];;
       ret None
     else
       match json with
       | Throw e => throw e
       | Return data =>
           let* u := get_prop P data "url" in
           (* data.url ?? false *)
           ret (match u with
                | None | Some JNull => None
                | Some v => Some v
                end)
       end)
    (fun err => log_failure "⛔ Get upload url failed:" err;; ret None).

(** [uploadFile] *)
Definition uploadFile (url : JSON) (body : list Z) : M bool :=
  try_catch
    (let* response :=
       fetch P {| req_url := ToString url; req_method := "PUT";
                  req_headers := [("Content-Type", "application/json")];
                  req_body := Some body |} in
     ret (status_ok (fst response)))
    (fun err => log_failure "⛔ Upload file failed:" err;; ret false).

(** [finishedUpload]. A [url] that is not a string either is rejected by
    [new URL] or has no [split] method: both throw inside the [try]. *)
Definition finishedUpload (url : JSON) : M bool :=
  try_catch
    (match url with
     | JStr u =>
         match Url.pathname u with
         | None => throw (MkError "Invalid URL")
         | Some pathname =>
             let key := finishedUpload_key pathname in
             let bucket := finishedUpload_bucket u in
             let* response :=
               fetch P (get (cfg_API_BASE_URL cfg ++ "/finished-upload")
                            [("x-server-id", cfg_serverId cfg);
                             ("x-key", key);
                             ("x-bucket", bucket)]) in
             ret (status_ok (fst response))
         end
     | _ =>
         match Url.pathname (ToString url) with
         | None => throw (MkError "Invalid URL")
         | Some _ => throw (MkError "url.split is not a function")
         end
     end)
    (fun err => log_failure "⛔ Finished upload failed:" err;; ret false).

(* ===================================================================== *)
(** ** The collector (lines 203-238)                                      *)
(* ===================================================================== *)

(** The fixed part of the argument list, lines 204-215. *)
Definition base_args (tmpFile : string) : list string :=
  [ "-h"; cfg_PGHOST cfg;
    "-p"; cfg_PGPORT cfg;
    "-U"; cfg_PGUSER cfg;
    "-w";
    "--timeout"; cfg_PG_TIMEOUT cfg;
    "--omit"; cfg_PG_OMIT cfg;
    "--sql-length"; cfg_PG_SQL_LENGTH cfg;
    "--statements-limit"; cfg_PG_STATEMENTS_LIMIT cfg;
    "-f"; "json";
    "-o"; tmpFile ].

(** [PG_DATABASES.split(',').map((d) => d.trim()).filter(Boolean)] *)
Definition dbs : list string :=
  List.filter Text.truthy
         (map Text.trim (Text.split "," (cfg_PG_DATABASES cfg))).

(** The argument list after lines 216-221. *)
Definition pgmetrics_args (tmpFile : string) : list string :=
  let args := base_args tmpFile in
  if cfg_ALL_DBS cfg then
    let start := match indexOf "-w" args with
                 | Some i => S i
                 | None => 0%nat
                 end in
    splice_insert start "--all-dbs" args
  else args ++ dbs.

(** The child's environment, lines 223-227. *)
Definition pgmetrics_env : gmap string string :=
  let env := <["PGPORT" := cfg_PGPORT cfg]>
               (<["PGHOST" := cfg_PGHOST cfg]>
                  (<["PGUSER" := cfg_PGUSER cfg]> (cfg_env cfg))) in
  if Text.truthy (cfg_PGPASSWORD cfg)
  then <["PGPASSWORD" := cfg_PGPASSWORD cfg]> env
  else env.

(** [r.stderr?.trim() || r.error?.message || 'pgmetrics failed'], line 235. *)
Definition failure_text (r : spawn_result) : string :=
  Text.or_else (Text.trim <$> sp_stderr r)
    (Text.or_else (message <$> sp_error r) "pgmetrics failed").

Definition runPgmetrics (tmpFile : string) : M unit :=
  let* r := spawnSync P "pgmetrics" (pgmetrics_args tmpFile) pgmetrics_env in
  match sp_status r with
  | Some 0 => ret tt
  | _ => throw (MkError (failure_text r))
  end.

(* ===================================================================== *)
(** ** The send loop (lines 240-289)                                      *)
(* ===================================================================== *)

Definition tmpFile_at (t : Z) : string :=
  join P (tmpdir P)
    ("pgmetrics_" ++ cfg_serverId cfg ++ "_" ++ Text.Z_to_string t ++ ".json").

(** The statements of the [try] block after the collection, lines 264-283. *)
Definition send_snapshot (tmpFile : string) : M unit :=
  let* raw := readFileSync tmpFile in
  unlinkSync tmpFile;;
  let size := Utf8.byteLength raw in
  console_log [Txt "Size:"; SizeMB size; Txt "MB for server_id:"; Txt (cfg_serverId cfg)];;
  let* url := getUploadUrl size in
  if negb (truthy url) then
    sleep (Num 1000)                                     (* continue *)
  else
    let u := default JNull url in
    console_log [Txt "URL:"; Val u];;
    let* uploaded := uploadFile u raw in
    console_log [Txt "Uploaded:"; Flag uploaded; Txt "for server_id:";
                 Txt (cfg_serverId cfg)];;
    let* finished := finishedUpload u in
    console_log [Txt "Finished:"; Flag finished; Txt "for server_id:";
                 Txt (cfg_serverId cfg)];;
    sleep (Num 1000).

(** Lines 254-262: the collection, with its clean-up on failure. *)
Definition collect (tmpFile : string) : M unit :=
  try_catch (runPgmetrics tmpFile)
    (fun e =>
       try_catch (unlinkSync tmpFile) (fun _ => ret tt);;
       throw e).

(** The [try] block of one iteration. *)
Definition iteration_try : M unit :=
  let* ok := shouldSend in
  if negb ok then
    sleep (Num 250)                                      (* continue *)
  else
    let* d := now P in
    console_log [Txt "🚀 Backend said YES — collecting pgmetrics... sending for server_id:";
                 Txt (cfg_serverId cfg ++ " at "); LocaleDate d];;
    let* t := now P in
    let tmpFile := tmpFile_at t in
    collect tmpFile;;
    send_snapshot tmpFile.

(** The [catch] block of one iteration, lines 284-287. *)
Definition iteration_catch (err : JsError) : M unit :=
  console_log [Txt "⛔ Error:"; Txt (message err)];;
  sleep (Num 1000).

(** One turn of [while (true)]. *)
Definition iteration : M unit := try_catch iteration_try iteration_catch.

(** The first [n] turns of the loop. *)
Fixpoint loop (n : nat) : M unit :=
  match n with
  | O => ret tt
  | S k => iteration;; loop k
  end.

End Sender.

(* ===================================================================== *)
(** ** Vocabulary of the statements                                       *)
(* ===================================================================== *)

(** The admission request. *)
Definition admission_request (cfg : config) : request :=
  get (cfg_API_BASE_URL cfg ++ "/request-upload") [("x-server-id", cfg_serverId cfg)].

(** An answer that admits: a response with a status in 200..299. *)
Definition admits (a : fetch_result) : bool :=
  match a with
  | Response status _ => status_ok status
  | NetworkFailure _ => false
  end.

(** The waits of the admission check: the long one, the short default, or
    a time stamp taken from the answer minus the current time, floored at 0. *)
Definition admission_wait (P : Platform) (ms : jsnum) : Prop :=
  ms = Num 30000 \/ ms = Num 2500
  \/ exists v t, ms = Math_max0 (jsnum_sub (ToNumber P v) t).

(** The request for an upload target, with the payload size as a header. *)
Definition upload_url_request (cfg : config) (size : Z) : request :=
  get (cfg_API_BASE_URL cfg ++ "/request-upload-url")
      [("x-server-id", cfg_serverId cfg); ("x-content-length", Text.Z_to_string size)].

(** The transfer of the payload. *)
Definition put_request (url : JSON) (body : list Z) : request :=
  {| req_url := ToString url; req_method := "PUT";
     req_headers := [("Content-Type", "application/json")];
     req_body := Some body |}.

(** The completion confirmation, with the derived key and bucket. *)
Definition finished_request (cfg : config) (key bucket : string) : request :=
  get (cfg_API_BASE_URL cfg ++ "/finished-upload")
      [("x-server-id", cfg_serverId cfg); ("x-key", key); ("x-bucket", bucket)].

(** The world once the snapshot has been read, its file removed and its
    size written to the console. *)
Definition after_read (cfg : config) (tmpFile : string) (size : Z) (w : world) : world :=
  {| fs := delete tmpFile (fs w); tick := S (S (S (tick w)));
     trace := trace w ++ [EReadFile tmpFile; EUnlink tmpFile;
                          ELog [Txt "Size:"; SizeMB size; Txt "MB for server_id:";
                                Txt (cfg_serverId cfg)]] |}.


(** The world in which the collector is started, and the path it is given. *)
Definition collecting (P : Platform) (cfg : config) (w1 : world) : world :=
  {| fs := fs w1; tick := S (S (S (tick w1)));
     trace := trace w1
              ++ [ELog [Txt "🚀 Backend said YES — collecting pgmetrics... sending for server_id:";
                        Txt (cfg_serverId cfg ++ " at ");
                        LocaleDate (Date_now P (tick w1))]] |}.

(** The snapshot path of the iteration whose admission check ended in [w1]. *)
Definition tmpFile_of (P : Platform) (cfg : config) (w1 : world) : string :=
  tmpFile_at P cfg (Date_now P (S (S (tick w1)))).

(** The start of the collector. *)
Definition spawn_event (cfg : config) (tmpFile : string) : event :=
  ESpawn "pgmetrics" (pgmetrics_args cfg tmpFile) (pgmetrics_env cfg).


(** *** Scripted worlds, for concrete runs *)

(** The path that follows [-o] in an argument list. *)
Fixpoint output_of (args : list string) : option string :=
  match args with
  | [] => None
  | a :: rest =>
      if String.eqb a "-o" then head rest else output_of rest
  end.

(** An outside world that answers every request by [answer], whose child
    process ends with [child] after writing [written] (if any) to its
    output path, and whose clock shows 1000 ms plus the step. *)
Definition scripted (answer : request -> fetch_result) (child : spawn_result)
    (written : option (list byte)) : Platform :=
  {| JSON_parse := fun _ => None;
     StringToNumber := fun _ => NaN;
     null_property_message :=
       fun k => "Cannot read properties of null (reading '" ++ k ++ "')";
     tmpdir := "/tmp";
     join := fun a b => a ++ "/" ++ b;
     fetch_answer := fun _ r => answer r;
     spawn_effect :=
       fun _ args _ files =>
         (child,
          match written, output_of args with
          | Some bytes, Some path => <[path := bytes]> files
          | _, _ => files
          end);
     Date_now := fun n => 1000 + Z.of_nat n |}.

(** The initial world: no file, no action yet. *)
Definition nothing_ran : world := {| fs := ∅; tick := 0; trace := [] |}.

(** The configuration of [bun run sendPgmetrics.ts srv1] with an empty
    environment. *)
Definition srv1 : config := load ∅ ["bun"; "sendPgmetrics.ts"; "srv1"].

(** A child that exited with [code] after writing [stderr]. *)
Definition exited (code : Z) (stderr : string) : spawn_result :=
  {| sp_status := Some code; sp_stderr := Some stderr; sp_error := None |}.

(** A service that admits, hands out [url] as the upload target, rejects
    the transfer with status 500 and accepts everything else. *)
Definition service (url : string) (r : request) : fetch_result :=
  if String.eqb (req_method r) "PUT" then Response 500 (Throw (MkError "Unexpected end of JSON input"))
  else if String.eqb (req_url r) "https://metrics.ggpanel.site/request-upload-url"
  then Response 200 (Return (JObj [("url", JStr url)]))
  else Response 200 (Return (JObj [])).

(** *** The diagnostic text and the storage key, for comparison *)

(** The captured error output, trimmed; empty when there is none. *)
Definition stderr_text (r : spawn_result) : string :=
  match sp_stderr r with
  | Some s => Text.trim s
  | None => ""
  end.

(** The message of the launch failure; empty when there is none. *)
Definition launch_text (r : spawn_result) : string :=
  match sp_error r with
  | Some e => message e
  | None => ""
  end.

(** The diagnostic text in the specification's words: the captured error
    output when it is not empty, else the launch-failure message, else a
    generic message. *)
Definition diagnostic_as_specified (r : spawn_result) : string :=
  Text.or_else (sp_stderr r) (Text.or_else (message <$> sp_error r) "pgmetrics failed").


(* ===================================================================== *)
(** ** Test mode (lines 44-77)                                            *)
(* ===================================================================== *)

(** How the process ends: [process.exit(code)], after an optional
    [console.error] line. *)
Record exit : Type := MkExit {
  exit_code : Z;
  exit_stderr : option (list logpart);
}.

Section TestMode.

Variable P : Platform.
Variable cfg : config.

(** The lines that show the settings, lines 45-56. *)
Definition test_mode_banner : M unit :=
  console_log [Txt "🧪 TEST MODE — no outbound API requests"];;
  console_log [Txt "   Validating env and running pgmetrics once, then exiting."];;
  console_log [Txt "-----------------------------------"];;
  console_log [Txt "Env:"];;
  console_log [Txt "  PGUSER:"; Txt (cfg_PGUSER cfg)];;
  console_log [Txt "  PGHOST:"; Txt (cfg_PGHOST cfg)];;
  console_log [Txt "  PGPORT:"; Txt (cfg_PGPORT cfg)];;
  console_log [Txt "  PG_DATABASES:";
               Txt (if cfg_ALL_DBS cfg then "all (--all-dbs)" else cfg_PG_DATABASES cfg)];;
  console_log [Txt "  PGPASSWORD:";
               Txt (if Text.truthy (cfg_PGPASSWORD cfg) then "*** set ***" else "(not set)")];;
  console_log [Txt "  PG_TIMEOUT:"; Txt (cfg_PG_TIMEOUT cfg); Txt "PG_OMIT:";
               Txt (cfg_PG_OMIT cfg)];;
  console_log [Txt "  PG_SQL_LENGTH:"; Txt (cfg_PG_SQL_LENGTH cfg);
               Txt "PG_STATEMENTS_LIMIT:"; Txt (cfg_PG_STATEMENTS_LIMIT cfg)];;
  console_log [Txt "-----------------------------------"].

Definition test_tmpFile_at (t : Z) : string :=
  join P (tmpdir P) ("pgmetrics_test_" ++ Text.Z_to_string t ++ ".json").

(** The [try] block, lines 59-67. *)
Definition test_mode_try (tmpFile : string) : M unit :=
  runPgmetrics P cfg tmpFile;;
  let* raw := readFileSync tmpFile in
  let size := Utf8.byteLength raw in
  console_log [Txt "✅ pgmetrics ran successfully"];;
  console_log [Txt "   Output file:"; Txt tmpFile];;
  console_log [Txt "   Size:"; SizeMB size; Txt "MB"];;
  unlinkSync tmpFile;;
  console_log [Txt "   Temp file removed."].

(** The whole block: one collection, then [process.exit]. *)
Definition test_mode : M exit :=
  test_mode_banner;;
  let* t := now P in
  let tmpFile := test_tmpFile_at t in
  try_catch
    (test_mode_try tmpFile;;
     console_log [Txt "✅ Test complete. Exiting."];;
     ret {| exit_code := 0; exit_stderr := None |})
    (fun e =>
       try_catch (unlinkSync tmpFile) (fun _ => ret tt);;
       ret {| exit_code := 1;
              exit_stderr := Some [Txt "❌ pgmetrics failed:"; Txt (message e)] |}).

End TestMode.

(** The console lines of [test_mode_banner]. *)
Definition test_mode_lines (cfg : config) : list (list logpart) :=
  [ [Txt "🧪 TEST MODE — no outbound API requests"];
    [Txt "   Validating env and running pgmetrics once, then exiting."];
    [Txt "-----------------------------------"];
    [Txt "Env:"];
    [Txt "  PGUSER:"; Txt (cfg_PGUSER cfg)];
    [Txt "  PGHOST:"; Txt (cfg_PGHOST cfg)];
    [Txt "  PGPORT:"; Txt (cfg_PGPORT cfg)];
    [Txt "  PG_DATABASES:";
     Txt (if cfg_ALL_DBS cfg then "all (--all-dbs)" else cfg_PG_DATABASES cfg)];
    [Txt "  PGPASSWORD:";
     Txt (if Text.truthy (cfg_PGPASSWORD cfg) then "*** set ***" else "(not set)")];
    [Txt "  PG_TIMEOUT:"; Txt (cfg_PG_TIMEOUT cfg); Txt "PG_OMIT:"; Txt (cfg_PG_OMIT cfg)];
    [Txt "  PG_SQL_LENGTH:"; Txt (cfg_PG_SQL_LENGTH cfg);
     Txt "PG_STATEMENTS_LIMIT:"; Txt (cfg_PG_STATEMENTS_LIMIT cfg)];
    [Txt "-----------------------------------"] ].

(** The world in which test mode starts the collector. *)
Definition testing (P : Platform) (cfg : config) (w : world) : world :=
  {| fs := fs w; tick := 13 + tick w;
     trace := trace w ++ map ELog (test_mode_lines cfg) |}.

(** The banner of the sender, lines 79-83. *)
Definition sender_banner (cfg : config) : M unit :=
  console_log [Txt "▶ Starting pgmetrics sender..."];;
  console_log [Txt "🆔 Server ID:"; Txt (cfg_serverId cfg)];;
  console_log [Txt "📡 Target:"; Txt (cfg_API_BASE_URL cfg ++ "/pgmetrics")];;
  console_log [Txt "🐘 PG:";
               Txt (cfg_PGUSER cfg ++ "@" ++ cfg_PGHOST cfg ++ ":" ++ cfg_PGPORT cfg);
               Txt (if cfg_ALL_DBS cfg then "(all-dbs)"
                    else "dbs: " ++ cfg_PG_DATABASES cfg)];;
  console_log [Txt "-----------------------------------"].

(* ===================================================================== *)
(** ** The steps of an iteration, for the statements on its order         *)
(* ===================================================================== *)

(** What an action is, its details and the console lines left out. *)
Inductive step : Type :=
| SAdmission       (* GET with the identity header only *)
| STarget          (* GET with the identity and the payload size *)
| STransfer        (* PUT *)
| SConfirm         (* GET with the identity, the key and the bucket *)
| SOtherFetch
| SCollect         (* the collector is started *)
| SRead
| SUnlink
| SSleep (ms : jsnum).

Definition step_of_request (r : request) : step :=
  if String.eqb (req_method r) "PUT" then STransfer
  else if bool_decide (map fst (req_headers r) = ["x-server-id"]) then SAdmission
  else if bool_decide (map fst (req_headers r) = ["x-server-id"; "x-content-length"])
  then STarget
  else if bool_decide (map fst (req_headers r) = ["x-server-id"; "x-key"; "x-bucket"])
  then SConfirm
  else SOtherFetch.

Fixpoint steps (events : list event) : list step :=
  match events with
  | [] => []
  | EFetch r :: rest => step_of_request r :: steps rest
  | ESetTimeout ms :: rest => SSleep ms :: steps rest
  | ELog _ :: rest => steps rest
  | ESpawn _ _ _ :: rest => SCollect :: steps rest
  | EReadFile _ :: rest => SRead :: steps rest
  | EUnlink _ :: rest => SUnlink :: steps rest
  end.

Definition is_admission_step (s : step) : bool :=
  match s with SAdmission => true | _ => false end.

Definition is_collect_step (s : step) : bool :=
  match s with SCollect => true | _ => false end.

(** The orders of steps that an iteration can take. *)
Definition iteration_paths (wait : jsnum) : list (list step) :=
  [ [SAdmission; SSleep wait; SSleep (Num 250)];
    [SAdmission; SCollect; SUnlink; SSleep (Num 1000)];
    [SAdmission; SCollect; SRead; SSleep (Num 1000)];
    [SAdmission; SCollect; SRead; SUnlink; STarget; SSleep (Num 1000)];
    [SAdmission; SCollect; SRead; SUnlink; STarget; STransfer; SSleep (Num 1000)];
    [SAdmission; SCollect; SRead; SUnlink; STarget; STransfer; SConfirm;
     SSleep (Num 1000)] ].

(* ===================================================================== *)
(** * Properties                                                          *)
(* ===================================================================== *)

(** ** Text *)

Lemma split_head_take_until (sep : ascii) (s : string) :
  Text.split sep s !! 0%nat = Some (Url.take_until (fun c => Ascii.eqb c sep) s).
Proof.
  induction s as [|c r IH]; simpl; [reflexivity|].
  destruct (Ascii.eqb c sep); [reflexivity|].
  destruct (Text.split sep r) as [|h t]; simpl in *; [discriminate|].
  now inversion IH.
Qed.

Lemma finishedUpload_key_prefix (pathname : string) :
  finishedUpload_key pathname
  = Url.take_until (fun c => Ascii.eqb c ".") (Text.substring1 pathname).
Proof.
  unfold finishedUpload_key. now rewrite split_head_take_until.
Qed.

Lemma finishedUpload_bucket_prefix (url : string) :
  finishedUpload_bucket url
  = match Text.split "/" url !! 2%nat with
    | Some host => Url.take_until (fun c => Ascii.eqb c ".") host
    | None => ""
    end.
Proof.
  unfold finishedUpload_bucket.
  destruct (Text.split "/" url !! 2%nat); [|reflexivity].
  now rewrite split_head_take_until.
Qed.

Lemma trimEnd_empty_or_not (s : string) :
  Text.is_empty (Text.trimEnd s) = true -> Text.trimEnd s = "".
Proof. destruct (Text.trimEnd s); [reflexivity|discriminate]. Qed.

(** ** UTF-8 *)

Lemma between_spec (lo hi x : Z) :
  Utf8.between lo hi x = true <-> lo <= x <= hi.
Proof. unfold Utf8.between. rewrite andb_true_iff, !Z.leb_le. tauto. Qed.

Lemma lo2_bounds (x0 : Z) : 0x80 <= Utf8.lo2 x0.
Proof. unfold Utf8.lo2. repeat case Z.eqb_spec; lia. Qed.

Lemma hi2_bounds (x0 : Z) : Utf8.hi2 x0 <= 0xBF.
Proof. unfold Utf8.hi2. repeat case Z.eqb_spec; lia. Qed.

Local Ltac utf8_case :=
  match goal with
  | |- context [if ?c then _ else _] => destruct c eqn:?
  | H : context [if ?c then _ else _] |- _ => destruct c eqn:?
  | H : _ && _ = true |- _ => apply andb_true_iff in H; destruct H
  | H : Utf8.between _ _ _ = true |- _ => apply between_spec in H
  | H : Utf8.between _ _ _ = false |- _ => clear H
  | H : (_ <=? _) = true |- _ => apply Z.leb_le in H
  | H : (_ <=? _) = false |- _ => apply Z.leb_gt in H
  | H : false = true |- _ => discriminate H
  end.

(** On well-formed UTF-8, decoding and measuring gives back the number of
    bytes. *)
Lemma byteLength_decode_well_formed (bs : list byte) :
  Utf8.well_formed bs = true ->
  Utf8.byteLength (Utf8.decode bs) = Z.of_nat (length bs).
Proof.
  remember (length bs) as n eqn:Hn.
  assert (Hle : (length bs <= n)%nat) by lia.
  rewrite Hn. clear Hn. revert bs Hle.
  induction n as [|n IH]; intros bs Hle Hwf.
  - destruct bs; [reflexivity|simpl in Hle; lia].
  - destruct bs as [|b0 r0]; [reflexivity|].
    cbn [Utf8.well_formed Utf8.decode] in *.
    set (x0 := Utf8.byteZ b0) in *.
    destruct (x0 <=? 0x7F) eqn:H1.
    { cbn [Utf8.byteLength length]. rewrite IH by (simpl in Hle; auto with lia).
      unfold Utf8.encoded_length. rewrite H1. lia. }
    apply Z.leb_gt in H1.
    destruct (Utf8.between 0xC2 0xDF x0) eqn:H2.
    { apply between_spec in H2.
      destruct r0 as [|b1 r1]; [discriminate|].
      repeat utf8_case.
      cbn [Utf8.byteLength length]. rewrite IH by (simpl in Hle; auto with lia).
      unfold Utf8.encoded_length. repeat case Z.leb_spec; lia. }
    destruct (Utf8.between 0xE0 0xEF x0) eqn:H3.
    { apply between_spec in H3.
      destruct r0 as [|b1 [|b2 r2]]; try discriminate.
      pose proof (lo2_bounds x0). pose proof (hi2_bounds x0).
      assert (x0 = 0xE0 -> 0xA0 <= Utf8.lo2 x0)
        by (intros ->; unfold Utf8.lo2; simpl; lia).
      repeat utf8_case.
      cbn [Utf8.byteLength length]. rewrite IH by (simpl in Hle; auto with lia).
      unfold Utf8.encoded_length. repeat case Z.leb_spec; lia. }
    destruct (Utf8.between 0xF0 0xF4 x0) eqn:H4; [|discriminate].
    apply between_spec in H4.
    destruct r0 as [|b1 [|b2 [|b3 r3]]]; try discriminate.
    pose proof (lo2_bounds x0). pose proof (hi2_bounds x0).
    assert (x0 = 0xF0 -> 0x90 <= Utf8.lo2 x0)
      by (intros ->; unfold Utf8.lo2; simpl; lia).
    repeat utf8_case.
    cbn [Utf8.byteLength length]. rewrite IH by (simpl in Hle; auto with lia).
    unfold Utf8.encoded_length. repeat case Z.leb_spec; lia.
Qed.

(** ** Configuration *)

(** C9, counterexample: with an empty environment the omitted-sections
    setting is not ["logs"], so the settings do not all take the stated
    defaults. *)
Lemma C9_omit_default_is_not_logs :
  ~ (PG_DATABASES ∅ = "all" /\ PG_TIMEOUT ∅ = "60" /\ PG_OMIT ∅ = "logs"
     /\ PG_SQL_LENGTH ∅ = "10000" /\ PG_STATEMENTS_LIMIT ∅ = "10000"
     /\ PGPORT ∅ = "5432" /\ PGHOST ∅ = "/var/run/postgresql").
Proof. intros (_ & _ & H & _). vm_compute in H. discriminate H. Qed.

(** C9, amended: when the environment settings are absent, the database
    selection is ["all"] (all databases), the collection timeout is 60, the
    omitted-sections list is ["log"], the maximal SQL text length and the
    maximal number of statements are 10000, the port is 5432 and the host is
    the local socket directory /var/run/postgresql. *)
Theorem C9_defaults (env : gmap string string) :
  env !! "PG_DATABASES" = None ->
  env !! "PG_TIMEOUT" = None ->
  env !! "PG_OMIT" = None ->
  env !! "PG_SQL_LENGTH" = None ->
  env !! "PG_STATEMENTS_LIMIT" = None ->
  env !! "PG_PORT" = None ->
  env !! "PG_HOST" = None ->
  PG_DATABASES env = "all" /\ ALL_DBS env = true
  /\ PG_TIMEOUT env = "60"
  /\ PG_OMIT env = "log"
  /\ PG_SQL_LENGTH env = "10000"
  /\ PG_STATEMENTS_LIMIT env = "10000"
  /\ PGPORT env = "5432"
  /\ PGHOST env = "/var/run/postgresql".
Proof.
  intros Hd Ht Ho Hs Hl Hp Hh.
  unfold ALL_DBS, PG_DATABASES, PG_TIMEOUT, PG_OMIT, PG_SQL_LENGTH,
    PG_STATEMENTS_LIMIT, PGPORT, PGHOST, env_or.
  rewrite Hd, Ht, Ho, Hs, Hl, Hp, Hh. repeat split; reflexivity.
Qed.

Lemma C9_defaults_witness :
  PG_DATABASES ∅ = "all" /\ ALL_DBS ∅ = true
  /\ PG_TIMEOUT ∅ = "60"
  /\ PG_OMIT ∅ = "log"
  /\ PG_SQL_LENGTH ∅ = "10000"
  /\ PG_STATEMENTS_LIMIT ∅ = "10000"
  /\ PGPORT ∅ = "5432"
  /\ PGHOST ∅ = "/var/run/postgresql".
Proof. apply (C9_defaults ∅); reflexivity. Defined.

(** Without an identity and outside test mode the script exits with
    status 1 before anything else. *)
Lemma start_without_identity (env : gmap string string) (argv : list string) :
  TEST_MODE env argv = false ->
  truthy_opt (SERVER_ID env argv) = false ->
  start env argv
  = Exit 1 "❌ Set SERVER_ID in .env or run: bun run sendPgmetrics.ts <server_id>".
Proof. intros Ht Hs. unfold start. now rewrite Ht, Hs. Qed.

(** The password check fires only on a password that is set and empty: an
    unset one has already been replaced by the default. *)
Lemma start_password_check (env : gmap string string) (argv : list string) :
  env !! "PG_PASSWORD" = None ->
  start env argv <> Exit 1 "❌ Set PGPASSWORD in .env when using remote host".
Proof.
  intros Hp. unfold start, PGPASSWORD, env_or. rewrite Hp. simpl.
  repeat match goal with |- context [if ?c then _ else _] => destruct c end;
    discriminate.
Qed.

(** C8: with the identity given, PG_HOST naming a remote host and
    PG_PASSWORD not set, the script does not exit: it enters the send loop
    with the password "postgres". *)
Theorem C8_unset_password_remote_host_runs :
  let env : gmap string string := <["PG_HOST" := "db.example.com"]> ∅ in
  let argv := ["bun"; "sendPgmetrics.ts"; "srv1"] in
  env !! "PG_PASSWORD" = None
  /\ PGHOST env <> "/var/run/postgresql"
  /\ start env argv = RunSendLoop (load env argv)
  /\ cfg_PGPASSWORD (load env argv) = "postgres".
Proof. vm_compute. repeat split; congruence. Qed.

(** ** The collector's argument list *)


Lemma dbs_spec (cfg : config) (d : string) :
  In d (dbs cfg)
  <-> d <> "" /\ exists e, In e (Text.split "," (cfg_PG_DATABASES cfg)) /\ d = Text.trim e.
Proof.
  unfold dbs. rewrite filter_In, in_map_iff. split.
  - intros [(e & <- & He) Ht]. split; [|eauto].
    intros E. rewrite E in Ht. discriminate.
  - intros [Hne (e & He & ->)]. split; [eauto|].
    destruct (Text.trim e); [congruence|reflexivity].
Qed.



(* ===================================================================== *)
(** ** Running the monad                                                  *)
(* ===================================================================== *)

(** Reading a property leaves the world as it is. *)
Lemma get_prop_world (P : Platform) (data : JSON) (k : string) (w : world)
    (o : outcome (option JSON)) (w' : world) :
  get_prop P data k w = (o, w') -> w' = w.
Proof. destruct data; simpl; unfold ret, throw; congruence. Qed.

(** Unfolds the monad and the primitives, and splits on every answer of the
    outside world and every test that the code makes. *)
Ltac unfold_M :=
  unfold log_failure in *;
  unfold try_catch, bind, ret, throw, console_log, sleep, emit,
    fetch, now, readFileSync, unlinkSync, spawnSync in *.

Ltac split_match :=
  match goal with
  | |- context [match ?x with _ => _ end] =>
      lazymatch x with
      | context [match _ with _ => _ end] => fail
      | _ =>
          let E := fresh "E" in
          destruct x eqn:E;
          try (apply get_prop_world in E; subst)
      end
  end.

Ltac run :=
  unfold_M; repeat (cbn beta iota zeta; split_match);
  cbn beta iota zeta; cbn [fs tick trace] in *.

(** Puts a trace in the form [trace w ++ [e1; ...; en]]. *)
Ltac flat_trace := cbn [trace fs tick]; rewrite <- ?app_assoc; cbn [app].

Lemma status_ok_spec (status : Z) :
  status_ok status = true <-> 200 <= status <= 299.
Proof. unfold status_ok. rewrite andb_true_iff, !Z.leb_le. tauto. Qed.

Ltac status_facts :=
  repeat match goal with
  | H : (_ =? _) = true |- _ => apply Z.eqb_eq in H
  | H : (_ =? _) = false |- _ => apply Z.eqb_neq in H
  | H : negb _ = true |- _ => apply negb_true_iff in H
  | H : negb _ = false |- _ => apply negb_false_iff in H
  | H : status_ok _ = true |- _ => apply status_ok_spec in H
  end.

Ltac give_logs :=
  unfold admission_wait;
  first [ exists (@nil (list logpart)); eexists; split; [reflexivity|eauto]
        | eexists (cons _ nil); eexists; split; [reflexivity|eauto]
        | eexists (cons _ (cons _ nil)); eexists; split; [reflexivity|eauto] ].

(** ** The admission check *)

(** [shouldSend] always returns. It admits exactly on a response with a
    status in 200..299; otherwise it writes console lines and waits once. *)
Lemma shouldSend_run (P : Platform) (cfg : config) (w : world) :
  exists b w',
    shouldSend P cfg w = (Return b, w')
    /\ fs w' = fs w
    /\ (admits (fetch_answer P (tick w) (admission_request cfg)) = true ->
        b = true /\ trace w' = (trace w ++ [EFetch (admission_request cfg)])%list)
    /\ (admits (fetch_answer P (tick w) (admission_request cfg)) = false ->
        b = false
        /\ exists logs ms,
             trace w' = (trace w ++ EFetch (admission_request cfg)
                                 :: map ELog logs ++ [ESetTimeout ms])%list
             /\ admission_wait P ms).
Proof.
  unfold shouldSend, shouldSend_try, shouldSend_catch.
  fold (admission_request cfg).
  run.
  all: do 2 eexists; split; [reflexivity|]; split; [reflexivity|].
  all: unfold admits; split; intros Hadm.
  all: try discriminate Hadm.
  all: try (exfalso; rewrite Hadm in *; discriminate).
  all: try match goal with H : truthy None = true |- _ => discriminate H end.
  all: try (exfalso; status_facts; first [lia | congruence]).
  all: try (split; [reflexivity|]; flat_trace; give_logs).
  all: split; reflexivity.
Qed.

(** ** The handshake: each step returns, and leaves the files alone *)

Ltac some_logs :=
  first [ instantiate (1 := @nil (list logpart)); reflexivity
        | instantiate (1 := cons _ (@nil (list logpart))); reflexivity
        | instantiate (1 := cons _ (cons _ (@nil (list logpart)))); reflexivity ].

Lemma getUploadUrl_run (P : Platform) (cfg : config) (size : Z) (w : world) :
  exists url w' logs,
    getUploadUrl P cfg size w = (Return url, w')
    /\ fs w' = fs w
    /\ trace w' = (trace w ++ EFetch (upload_url_request cfg size) :: map ELog logs)%list.
Proof.
  unfold getUploadUrl. fold (upload_url_request cfg size).
  run.
  all: do 3 eexists; split; [reflexivity|]; split; [reflexivity|]; flat_trace.
  all: some_logs.
Qed.

Lemma uploadFile_run (P : Platform) (url : JSON) (body : list Z) (w : world) :
  exists uploaded w' logs,
    uploadFile P url body w = (Return uploaded, w')
    /\ fs w' = fs w
    /\ trace w' = (trace w ++ EFetch (put_request url body) :: map ELog logs)%list.
Proof.
  unfold uploadFile. fold (put_request url body).
  run.
  all: do 3 eexists; split; [reflexivity|]; split; [reflexivity|]; flat_trace.
  all: some_logs.
Qed.

Lemma finishedUpload_run (P : Platform) (cfg : config) (url : JSON) (w : world) :
  exists finished w' seg,
    finishedUpload P cfg url w = (Return finished, w')
    /\ fs w' = fs w
    /\ trace w' = (trace w ++ seg)%list.
Proof.
  unfold finishedUpload.
  run.
  all: do 3 eexists; split; [reflexivity|]; split; [reflexivity|]; flat_trace; reflexivity.
Qed.

(** ** The collector and the clean-up of the snapshot file *)

Lemma collect_succeeds (P : Platform) (cfg : config) (tmpFile : string) (w : world)
    (r : spawn_result) (files : gmap string (list byte)) :
  spawn_effect P (tick w) (pgmetrics_args cfg tmpFile) (pgmetrics_env cfg) (fs w)
    = (r, files) ->
  sp_status r = Some 0 ->
  collect P cfg tmpFile w
  = (Return tt,
     {| fs := files; tick := S (tick w);
        trace := trace w ++ [ESpawn "pgmetrics" (pgmetrics_args cfg tmpFile)
                                    (pgmetrics_env cfg)] |}).
Proof.
  intros Hs H0. unfold collect, runPgmetrics. unfold_M. rewrite Hs.
  cbn beta iota zeta. now rewrite H0.
Qed.

Lemma collect_fails (P : Platform) (cfg : config) (tmpFile : string) (w : world)
    (r : spawn_result) (files : gmap string (list byte)) :
  spawn_effect P (tick w) (pgmetrics_args cfg tmpFile) (pgmetrics_env cfg) (fs w)
    = (r, files) ->
  sp_status r <> Some 0 ->
  collect P cfg tmpFile w
  = (Throw (MkError (failure_text r)),
     {| fs := delete tmpFile files; tick := S (S (tick w));
        trace := trace w ++ [ESpawn "pgmetrics" (pgmetrics_args cfg tmpFile)
                                    (pgmetrics_env cfg);
                             EUnlink tmpFile] |}).
Proof.
  intros Hs H0. unfold collect, runPgmetrics. unfold_M. rewrite Hs.
  cbn beta iota zeta.
  destruct (sp_status r) as [[| |]|] eqn:E; try congruence.
  all: cbn [fs tick trace]; destruct (files !! tmpFile) eqn:Ef.
  all: flat_trace; rewrite ?(delete_id _ _ Ef); reflexivity.
Qed.

Lemma send_snapshot_missing (P : Platform) (cfg : config) (tmpFile : string) (w : world) :
  fs w !! tmpFile = None ->
  exists e,
    send_snapshot P cfg tmpFile w
    = (Throw e, {| fs := fs w; tick := S (tick w);
                   trace := trace w ++ [EReadFile tmpFile] |}).
Proof.
  intros Hf. unfold send_snapshot. unfold_M. rewrite Hf. eauto.
Qed.

Lemma send_snapshot_read (P : Platform) (cfg : config) (tmpFile : string) (w : world)
    (bytes : list byte) :
  fs w !! tmpFile = Some bytes ->
  send_snapshot P cfg tmpFile w
  = (let raw := Utf8.decode bytes in
     let size := Utf8.byteLength raw in
     let* url := getUploadUrl P cfg size in
     if negb (truthy url) then sleep (Num 1000)
     else
       let u := default JNull url in
       console_log [Txt "URL:"; Val u];;
       let* uploaded := uploadFile P u raw in
       console_log [Txt "Uploaded:"; Flag uploaded; Txt "for server_id:";
                    Txt (cfg_serverId cfg)];;
       let* finished := finishedUpload P cfg u in
       console_log [Txt "Finished:"; Flag finished; Txt "for server_id:";
                    Txt (cfg_serverId cfg)];;
       sleep (Num 1000))
      (after_read cfg tmpFile (Utf8.byteLength (Utf8.decode bytes)) w).
Proof.
  intros Hf. unfold send_snapshot, after_read.
  unfold bind at 1. unfold readFileSync. rewrite Hf.
  unfold bind at 1. unfold unlinkSync. cbn [fs tick trace]. rewrite Hf.
  unfold bind at 1. unfold console_log at 1, emit at 1. cbn [fs tick trace].
  flat_trace. reflexivity.
Qed.

(** ** After the upload target is known *)


(** ** One iteration of the loop *)

Lemma iteration_denied (P : Platform) (cfg : config) (w w1 : world) :
  shouldSend P cfg w = (Return false, w1) ->
  iteration P cfg w
  = (Return tt, {| fs := fs w1; tick := S (tick w1);
                   trace := trace w1 ++ [ESetTimeout (Num 250)] |}).
Proof.
  intros Hs. unfold iteration, iteration_try, try_catch, bind.
  rewrite Hs. reflexivity.
Qed.

Lemma iteration_admitted (P : Platform) (cfg : config) (w w1 : world) :
  shouldSend P cfg w = (Return true, w1) ->
  iteration P cfg w
  = try_catch (collect P cfg (tmpFile_of P cfg w1);;
               send_snapshot P cfg (tmpFile_of P cfg w1))
      (iteration_catch) (collecting P cfg w1).
Proof.
  intros Hs. unfold iteration, iteration_try, try_catch, bind.
  rewrite Hs. reflexivity.
Qed.

Lemma iteration_collection_fails (P : Platform) (cfg : config) (w w1 : world)
    (r : spawn_result) (files : gmap string (list byte)) :
  shouldSend P cfg w = (Return true, w1) ->
  spawn_effect P (tick (collecting P cfg w1))
    (pgmetrics_args cfg (tmpFile_of P cfg w1)) (pgmetrics_env cfg) (fs w1) = (r, files) ->
  sp_status r <> Some 0 ->
  iteration P cfg w
  = (Return tt,
     {| fs := delete (tmpFile_of P cfg w1) files;
        tick := S (S (S (S (tick (collecting P cfg w1)))));
        trace := trace (collecting P cfg w1)
                 ++ [spawn_event cfg (tmpFile_of P cfg w1);
                     EUnlink (tmpFile_of P cfg w1);
                     ELog [Txt "⛔ Error:"; Txt (failure_text r)];
                     ESetTimeout (Num 1000)] |}).
Proof.
  intros Hs Hc Hr. rewrite (iteration_admitted P cfg w w1 Hs).
  unfold try_catch, bind.
  rewrite (collect_fails P cfg _ (collecting P cfg w1) r files Hc Hr).
  unfold iteration_catch, bind, console_log, sleep, emit. cbn [fs tick trace message].
  flat_trace. reflexivity.
Qed.

(** An iteration whose collection succeeded: the file is read and removed,
    its size is logged and sent with the request for an upload target, and
    the iteration ends with a sleep of 1000 ms. *)
Lemma iteration_collected (P : Platform) (cfg : config) (w w1 : world)
    (r : spawn_result) (files : gmap string (list byte)) (bytes : list byte) :
  shouldSend P cfg w = (Return true, w1) ->
  spawn_effect P (tick (collecting P cfg w1))
    (pgmetrics_args cfg (tmpFile_of P cfg w1)) (pgmetrics_env cfg) (fs w1) = (r, files) ->
  sp_status r = Some 0 ->
  files !! tmpFile_of P cfg w1 = Some bytes ->
  exists w' seg,
    iteration P cfg w = (Return tt, w')
    /\ trace w'
       = (trace (collecting P cfg w1)
          ++ [spawn_event cfg (tmpFile_of P cfg w1);
              EReadFile (tmpFile_of P cfg w1);
              EUnlink (tmpFile_of P cfg w1);
              ELog [Txt "Size:"; SizeMB (Utf8.byteLength (Utf8.decode bytes));
                    Txt "MB for server_id:"; Txt (cfg_serverId cfg)];
              EFetch (upload_url_request cfg (Utf8.byteLength (Utf8.decode bytes)))]
          ++ seg ++ [ESetTimeout (Num 1000)])%list
    /\ fs w' = delete (tmpFile_of P cfg w1) files.
Proof.
  intros Hs Hc H0 Hf.
  rewrite (iteration_admitted P cfg w w1 Hs).
  unfold try_catch. unfold bind at 1.
  rewrite (collect_succeeds P cfg _ (collecting P cfg w1) r files Hc H0).
  rewrite (send_snapshot_read P cfg _ _ bytes) by exact Hf.
  cbn zeta. unfold bind at 1.
  match goal with |- context [getUploadUrl P cfg ?s ?x] =>
    destruct (getUploadUrl_run P cfg s x) as (url & w3 & l3 & E3 & F3 & T3) end.
  rewrite E3. unfold spawn_event.
  destruct (truthy url) eqn:Ht; cbn [negb].
  - unfold bind at 1. unfold console_log at 1, emit at 1.
    unfold bind at 1.
    match goal with |- context [uploadFile P ?u ?b ?x] =>
      destruct (uploadFile_run P u b x) as (up & w4 & l4 & E4 & F4 & T4) end.
    rewrite E4.
    unfold bind at 1. unfold console_log at 1, emit at 1.
    unfold bind at 1.
    match goal with |- context [finishedUpload P cfg ?u ?x] =>
      destruct (finishedUpload_run P cfg u x) as (fin & w5 & l5 & E5 & F5 & T5) end.
    rewrite E5.
    unfold bind, console_log, sleep, emit. cbn [fs tick trace] in *.
    eexists _, (map ELog l3 ++ _ :: _ :: map ELog l4 ++ _ :: l5 ++ [_])%list.
    split; [reflexivity|]. cbn [fs trace]. split.
    + rewrite T5, T4, T3. cbn [after_read trace].
      repeat first [rewrite <- app_assoc | progress cbn [app]]. reflexivity.
    + rewrite F5, F4, F3. reflexivity.
  - unfold sleep, emit. cbn [fs tick trace].
    eexists _, (map ELog l3). split; [reflexivity|]. cbn [fs trace]. split.
    + rewrite T3. cbn [after_read trace]. rewrite <- !app_assoc. reflexivity.
    + rewrite F3. reflexivity.
Qed.

(** Every admitted iteration returns and ends with a sleep of 1000 ms, and
    the snapshot file of the iteration is not on disk afterwards. *)
Lemma iteration_admitted_run (P : Platform) (cfg : config) (w w1 : world) :
  shouldSend P cfg w = (Return true, w1) ->
  exists w' seg,
    iteration P cfg w = (Return tt, w')
    /\ trace w' = (trace w1 ++ seg ++ [ESetTimeout (Num 1000)])%list
    /\ fs w' !! tmpFile_of P cfg w1 = None.
Proof.
  intros Hs.
  destruct (spawn_effect P (tick (collecting P cfg w1))
              (pgmetrics_args cfg (tmpFile_of P cfg w1)) (pgmetrics_env cfg) (fs w1))
    as [r files] eqn:Hc.
  destruct (decide (sp_status r = Some 0)) as [H0|H0].
  2: { rewrite (iteration_collection_fails P cfg w w1 r files Hs Hc H0).
       eexists _, [_; _; _; _]. split; [reflexivity|]. cbn [fs trace collecting]. split.
       - rewrite <- !app_assoc. reflexivity.
       - apply lookup_delete_eq. }
  destruct (files !! tmpFile_of P cfg w1) as [bytes|] eqn:Hf.
  - destruct (iteration_collected P cfg w w1 r files bytes Hs Hc H0 Hf)
      as (w' & seg & E & T & F).
    eexists w', (_ :: _ :: _ :: _ :: _ :: _ :: seg)%list.
    split; [exact E|]. split.
    + rewrite T. cbn [collecting trace]. rewrite <- !app_assoc. reflexivity.
    + rewrite F. apply lookup_delete_eq.
  - rewrite (iteration_admitted P cfg w w1 Hs).
    unfold try_catch. unfold bind at 1.
    rewrite (collect_succeeds P cfg _ (collecting P cfg w1) r files Hc H0).
    match goal with |- context [send_snapshot P cfg ?f ?x] =>
      destruct (send_snapshot_missing P cfg f x) as (e & E) end.
    { exact Hf. }
    rewrite E. unfold iteration_catch, bind, console_log, sleep, emit.
    cbn [fs tick trace].
    eexists _, [_; _; _; _]. split; [reflexivity|]. cbn [fs trace]. split.
    + cbn [collecting trace]. rewrite <- !app_assoc. reflexivity.
    + exact Hf.
Qed.

(** ** Rate limiting *)




(** ** The claims on the admission check and the loop *)

(** C1: [shouldSend] always returns and never throws, whatever the answer
    to the admission request. It returns [true] exactly on a response with
    a status in 200..299. On every other answer (403, 404, 429, another
    status, a body that is not JSON, a network failure) it returns [false],
    and what it did after the request is to write console lines and then to
    wait once, as its last action. *)
Theorem C1_shouldSend_denies_and_never_throws (P : Platform) (cfg : config) (w : world) :
  exists b w',
    shouldSend P cfg w = (Return b, w')
    /\ fs w' = fs w
    /\ (admits (fetch_answer P (tick w) (admission_request cfg)) = true ->
        b = true /\ trace w' = (trace w ++ [EFetch (admission_request cfg)])%list)
    /\ (admits (fetch_answer P (tick w) (admission_request cfg)) = false ->
        b = false
        /\ exists logs ms,
             trace w' = (trace w ++ EFetch (admission_request cfg)
                                 :: map ELog logs ++ [ESetTimeout ms])%list
             /\ admission_wait P ms).
Proof. exact (shouldSend_run P cfg w). Qed.

(** Every iteration returns: it starts with the admission request and ends
    with a sleep of 250 ms or more. *)
Lemma iteration_run (P : Platform) (cfg : config) (w : world) :
  exists w' seg d,
    iteration P cfg w = (Return tt, w')
    /\ trace w' = (trace w ++ EFetch (admission_request cfg)
                            :: seg ++ [ESetTimeout (Num d)])%list
    /\ 250 <= d.
Proof.
  destruct (shouldSend_run P cfg w) as (b & w1 & Hs & _ & Hyes & Hno).
  destruct (admits (fetch_answer P (tick w) (admission_request cfg))).
  - destruct Hyes as [-> Ht]; [reflexivity|].
    destruct (iteration_admitted_run P cfg w w1 Hs) as (w' & seg & E & T & _).
    exists w', seg, 1000. split; [exact E|]. split; [|lia].
    rewrite T, Ht, <- app_assoc. reflexivity.
  - destruct Hno as [-> (logs & ms & Ht & Hw)]; [reflexivity|].
    rewrite (iteration_denied P cfg w w1 Hs).
    eexists _, (map ELog logs ++ [ESetTimeout ms])%list, 250.
    split; [reflexivity|]. split; [|lia].
    cbn [trace]. rewrite Ht.
    repeat first [rewrite <- app_assoc | progress cbn [app]]. reflexivity.
Qed.

(** The loop never ends by an exception: any number of turns returns. *)
Lemma loop_returns (P : Platform) (cfg : config) (n : nat) (w : world) :
  exists w', loop P cfg n w = (Return tt, w').
Proof.
  revert w. induction n as [|n IH]; intros w; cbn [loop].
  - unfold ret. eauto.
  - destruct (iteration_run P cfg w) as (w1 & _ & _ & E & _).
    unfold bind. rewrite E. apply IH.
Qed.

(** A 403 or 404 answer whose body is not the JSON value null makes the
    check wait 30000 ms. *)
Lemma shouldSend_blocked_waits_30s (P : Platform) (cfg : config) (w : world)
    (status : Z) (json : outcome JSON) :
  fetch_answer P (tick w) (admission_request cfg) = Response status json ->
  status = 403 \/ status = 404 ->
  json <> Return JNull ->
  exists w',
    shouldSend P cfg w = (Return false, w')
    /\ last (trace w') = Some (ESetTimeout (Num 30000)).
Proof.
  intros Ha Hst Hj.
  unfold shouldSend, shouldSend_try. fold (admission_request cfg).
  unfold_M. rewrite Ha. cbn beta iota zeta.
  destruct Hst as [-> | ->]; cbn [Z.eqb Pos.eqb].
  all: destruct json as [[]|]; try congruence; cbn.
  all: eexists; split; [reflexivity|]; cbn [trace]; apply last_snoc.
Qed.

(** C10: an iteration whose admission check was denied does nothing but
    sleep 250 ms more, after the wait that the check itself performed as
    its last action. And every iteration, denied or not, starts with the
    admission request and ends with a sleep of at least 250 ms, so that two
    consecutive admission checks are at least 250 ms apart. *)
Theorem C10_denied_iteration_sleeps_250 (P : Platform) (cfg : config) (w : world) :
  (forall w1,
      shouldSend P cfg w = (Return false, w1) ->
      iteration P cfg w
      = (Return tt, {| fs := fs w1; tick := S (tick w1);
                       trace := trace w1 ++ [ESetTimeout (Num 250)] |})
      /\ exists logs ms,
           trace w1 = (trace w ++ EFetch (admission_request cfg)
                               :: map ELog logs ++ [ESetTimeout ms])%list
           /\ admission_wait P ms)
  /\ exists w' seg d,
       iteration P cfg w = (Return tt, w')
       /\ trace w' = (trace w ++ EFetch (admission_request cfg)
                               :: seg ++ [ESetTimeout (Num d)])%list
       /\ 250 <= d.
Proof.
  split; [|exact (iteration_run P cfg w)].
  intros w1 Hs1.
  split; [exact (iteration_denied P cfg w w1 Hs1)|].
  destruct (shouldSend_run P cfg w) as (b & w1' & Hs & _ & Hyes & Hno).
  rewrite Hs in Hs1. injection Hs1 as -> ->.
  destruct (admits (fetch_answer P (tick w) (admission_request cfg))).
  - destruct Hyes as [Hb _]; [reflexivity|discriminate Hb].
  - destruct Hno as [_ H]; [reflexivity|exact H].
Qed.

(** ** Collection failure *)

Lemma failure_text_cases (r : spawn_result) :
  failure_text r
  = if Text.truthy (stderr_text r) then stderr_text r
    else if Text.truthy (launch_text r) then launch_text r
    else "pgmetrics failed".
Proof.
  unfold failure_text, stderr_text, launch_text, Text.or_else.
  destruct (sp_stderr r) as [s|], (sp_error r) as [e|]; simpl;
    repeat match goal with |- context [Text.truthy ?x] => destruct (Text.truthy x) end;
    reflexivity.
Qed.

(** C6, counterexample: the collector exits with status 1 and its error
    output is one blank: the error raised carries the generic message, not
    the captured output. *)
Lemma C6_blank_stderr_gives_generic_message :
  let r := exited 1 " " in
  let P := scripted (service "https://bucket1.storage.example/abc123.json?sig=x") r None in
  sp_stderr r = Some " "
  /\ diagnostic_as_specified r = " "
  /\ fst (runPgmetrics P srv1 "/tmp/out.json" nothing_ran)
     = Throw (MkError "pgmetrics failed").
Proof. vm_compute. repeat split. Qed.

(** C6, amended: when the collector exits with a non-zero status or cannot
    be launched, the collection step throws an error whose message is the
    captured error output with the surrounding white space removed when
    that is not empty, else the launch-failure message when it is not
    empty, else "pgmetrics failed"; the snapshot file is removed if it
    exists; the iteration then only logs that message and sleeps 1000 ms:
    it requests no upload target and transfers nothing. *)
Theorem C6_collection_failure (P : Platform) (cfg : config) (w w1 : world)
    (r : spawn_result) (files : gmap string (list byte)) :
  shouldSend P cfg w = (Return true, w1) ->
  spawn_effect P (tick (collecting P cfg w1))
    (pgmetrics_args cfg (tmpFile_of P cfg w1)) (pgmetrics_env cfg) (fs w1) = (r, files) ->
  sp_status r <> Some 0 ->
  fst (runPgmetrics P cfg (tmpFile_of P cfg w1) (collecting P cfg w1))
    = Throw (MkError (failure_text r))
  /\ failure_text r
     = (if Text.truthy (stderr_text r) then stderr_text r
        else if Text.truthy (launch_text r) then launch_text r
        else "pgmetrics failed")
  /\ iteration P cfg w
     = (Return tt,
        {| fs := delete (tmpFile_of P cfg w1) files;
           tick := S (S (S (S (tick (collecting P cfg w1)))));
           trace := trace (collecting P cfg w1)
                    ++ [spawn_event cfg (tmpFile_of P cfg w1);
                        EUnlink (tmpFile_of P cfg w1);
                        ELog [Txt "⛔ Error:"; Txt (failure_text r)];
                        ESetTimeout (Num 1000)] |}).
Proof.
  intros Hs Hc Hr. split; [|split].
  - unfold runPgmetrics, bind, spawnSync.
    change (fs (collecting P cfg w1)) with (fs w1). rewrite Hc. cbn.
    destruct (sp_status r) as [[| |]|]; try reflexivity. congruence.
  - apply failure_text_cases.
  - exact (iteration_collection_fails P cfg w w1 r files Hs Hc Hr).
Qed.

Lemma C6_collection_failure_witness :
  let r := exited 1 "connection refused" in
  let P := scripted (service "https://bucket1.storage.example/abc123.json?sig=x") r None in
  iteration P srv1 nothing_ran
  = (Return tt,
     {| fs := ∅; tick := 8;
        trace := [EFetch (admission_request srv1);
                  ELog [Txt "🚀 Backend said YES — collecting pgmetrics... sending for server_id:";
                        Txt "srv1 at "; LocaleDate 1001];
                  spawn_event srv1 "/tmp/pgmetrics_srv1_1003.json";
                  EUnlink "/tmp/pgmetrics_srv1_1003.json";
                  ELog [Txt "⛔ Error:"; Txt "connection refused"];
                  ESetTimeout (Num 1000)] |}).
Proof.
  intros r P.
  destruct (C6_collection_failure P srv1 nothing_ran
              {| fs := ∅; tick := 1; trace := [EFetch (admission_request srv1)] |}
              r ∅) as (_ & _ & E).
  - reflexivity.
  - reflexivity.
  - discriminate.
  - rewrite E. reflexivity.
Defined.

(** ** The snapshot file *)

(** C2, counterexample: the collector succeeds and writes a file of one
    byte, 0xFF, which is not UTF-8; the size that the loop logs and sends in
    the x-content-length header is 3, not 1. *)
Lemma C2_ill_formed_snapshot_size :
  let P := scripted (service "https://bucket1.storage.example/abc123.json?sig=x")
             (exited 0 "") (Some [Byte.xff]) in
  let tmpFile := "/tmp/pgmetrics_srv1_1003.json" in
  let after := snd (iteration P srv1 nothing_ran) in
  spawn_effect P 4 (pgmetrics_args srv1 tmpFile) (pgmetrics_env srv1) ∅
    = (exited 0 "", {[ tmpFile := [Byte.xff] ]})
  /\ In (spawn_event srv1 tmpFile) (trace after)
  /\ In (ELog [Txt "Size:"; SizeMB 3; Txt "MB for server_id:"; Txt "srv1"]) (trace after)
  /\ In (EFetch (upload_url_request srv1 3)) (trace after)
  /\ 3 <> Z.of_nat (length [Byte.xff]).
Proof.
  vm_compute. split; [reflexivity|].
  repeat split; try discriminate; repeat (first [left; reflexivity | right]).
Qed.

(** C2, amended: in every iteration in which collection is attempted, the
    temporary snapshot file is not on disk when the iteration ends, on every
    path (handshake done, handshake failed, collection failed); and when the
    collection succeeds and leaves a file of N bytes that is well-formed
    UTF-8, the size that the loop logs and sends in the x-content-length
    header is N. *)
Theorem C2_snapshot_file_removed_and_sized (P : Platform) (cfg : config) (w w1 : world) :
  shouldSend P cfg w = (Return true, w1) ->
  (exists w' seg,
      iteration P cfg w = (Return tt, w')
      /\ trace w' = (trace w1 ++ seg ++ [ESetTimeout (Num 1000)])%list
      /\ fs w' !! tmpFile_of P cfg w1 = None)
  /\ (forall r files bytes,
        spawn_effect P (tick (collecting P cfg w1))
          (pgmetrics_args cfg (tmpFile_of P cfg w1)) (pgmetrics_env cfg) (fs w1)
          = (r, files) ->
        sp_status r = Some 0 ->
        files !! tmpFile_of P cfg w1 = Some bytes ->
        Utf8.well_formed bytes = true ->
        exists w' seg,
          iteration P cfg w = (Return tt, w')
          /\ trace w'
             = (trace (collecting P cfg w1)
                ++ [spawn_event cfg (tmpFile_of P cfg w1);
                    EReadFile (tmpFile_of P cfg w1);
                    EUnlink (tmpFile_of P cfg w1);
                    ELog [Txt "Size:"; SizeMB (Z.of_nat (length bytes));
                          Txt "MB for server_id:"; Txt (cfg_serverId cfg)];
                    EFetch (upload_url_request cfg (Z.of_nat (length bytes)))]
                ++ seg ++ [ESetTimeout (Num 1000)])%list
          /\ fs w' = delete (tmpFile_of P cfg w1) files).
Proof.
  intros Hs. split.
  - exact (iteration_admitted_run P cfg w w1 Hs).
  - intros r files bytes Hc H0 Hf Hwf.
    rewrite <- (byteLength_decode_well_formed bytes Hwf).
    exact (iteration_collected P cfg w w1 r files bytes Hs Hc H0 Hf).
Qed.

Lemma C2_snapshot_file_removed_and_sized_witness :
  let P := scripted (service "https://bucket1.storage.example/abc123.json?sig=x")
             (exited 0 "") (Some [Byte.x7b; Byte.x7d]) in
  let tmpFile := "/tmp/pgmetrics_srv1_1003.json" in
  exists w' seg,
    iteration P srv1 nothing_ran = (Return tt, w')
    /\ In (EFetch (upload_url_request srv1 2)) (trace w')
    /\ trace w' = (EFetch (admission_request srv1) :: seg ++ [ESetTimeout (Num 1000)])%list
    /\ fs w' !! tmpFile = None.
Proof.
  intros P tmpFile.
  destruct (C2_snapshot_file_removed_and_sized P srv1 nothing_ran
              {| fs := ∅; tick := 1; trace := [EFetch (admission_request srv1)] |})
    as [(w' & seg & E & T & F) H]; [reflexivity|].
  destruct (H (exited 0 "") {[ tmpFile := [Byte.x7b; Byte.x7d] ]} [Byte.x7b; Byte.x7d])
    as (w2 & seg2 & E2 & T2 & _); try reflexivity.
  exists w', seg. split; [exact E|]. split; [|split; [exact T|exact F]].
  rewrite E in E2. injection E2 as <-. rewrite T2.
  apply in_or_app. right. apply in_or_app. left. cbn. auto 10.
Defined.

(** ** The storage key and bucket *)





(* ===================================================================== *)
(** * Further properties of the script                                    *)
(* ===================================================================== *)

(** ** Start-up *)

Lemma truthy_spec (s : string) : Text.truthy s = true <-> s <> "".
Proof. destruct s; cbn; split; intros H; congruence. Qed.

Lemma truthy_false_spec (s : string) : Text.truthy s = false <-> s = "".
Proof. destruct s; cbn; split; intros H; congruence. Qed.

Lemma empty_password_spec (env : gmap string string) :
  Text.truthy (PGPASSWORD env) = false <-> env !! "PG_PASSWORD" = Some "".
Proof.
  rewrite truthy_false_spec. unfold PGPASSWORD, env_or.
  destruct (env !! "PG_PASSWORD") as [v|]; split; intros H; congruence.
Qed.

(** X1: the script exits at start-up, always with status 1, exactly when
    it is outside test mode without an identity (none, or an empty one),
    or when PG_PASSWORD is set to the empty string while the host is not
    the local socket directory. *)
Theorem start_exits_iff (env : gmap string string) (argv : list string) :
  (forall code line, start env argv = Exit code line -> code = 1)
  /\ ((exists line, start env argv = Exit 1 line)
      <-> (TEST_MODE env argv = false /\ truthy_opt (SERVER_ID env argv) = false)
          \/ (env !! "PG_PASSWORD" = Some "" /\ PGHOST env <> "/var/run/postgresql")).
Proof.
  pose proof (empty_password_spec env) as Hpw.
  unfold start.
  destruct (TEST_MODE env argv) eqn:Ht,
           (truthy_opt (SERVER_ID env argv)) eqn:Hs,
           (Text.truthy (PGPASSWORD env)) eqn:Hp,
           (String.eqb_spec (PGHOST env) "/var/run/postgresql") as [Hh|Hh];
    cbn [negb andb]; (split; [intros code line E; congruence|]).
  all: split;
    [ intros [line E]; try discriminate E;
      first [ left; split; reflexivity
            | right; split; [apply Hpw; reflexivity|exact Hh] ]
    | intros [[E1 E2]|[E1 E2]]; try discriminate;
      try (apply Hpw in E1; discriminate E1); try contradiction; eauto ].
Qed.

(** X2: when the send loop is entered, the identity it uses is not empty,
    it is the one of SERVER_ID or else of the first argument, and test mode
    is off. *)
Theorem send_loop_has_identity (env : gmap string string) (argv : list string)
    (c : config) :
  start env argv = RunSendLoop c ->
  c = load env argv
  /\ cfg_TEST_MODE c = false
  /\ cfg_serverId c <> ""
  /\ SERVER_ID env argv = Some (cfg_serverId c).
Proof.
  unfold start. intros H.
  destruct (TEST_MODE env argv) eqn:Ht,
           (truthy_opt (SERVER_ID env argv)) eqn:Hs; cbn [negb andb] in H;
    try discriminate H;
    destruct (negb (Text.truthy (PGPASSWORD env))
              && negb (String.eqb (PGHOST env) "/var/run/postgresql"));
    try discriminate H.
  injection H as <-. split; [reflexivity|]. cbn [load cfg_TEST_MODE cfg_serverId].
  split; [exact Ht|].
  unfold truthy_opt in Hs. destruct (SERVER_ID env argv) as [v|]; [|discriminate Hs].
  split; [now apply truthy_spec|reflexivity].
Qed.

Lemma send_loop_has_identity_witness :
  cfg_serverId (load ∅ ["bun"; "sendPgmetrics.ts"; "srv1"]) <> "".
Proof.
  destruct (send_loop_has_identity ∅ ["bun"; "sendPgmetrics.ts"; "srv1"]
              (load ∅ ["bun"; "sendPgmetrics.ts"; "srv1"]))
    as (_ & _ & H & _); [vm_compute; reflexivity|].
  exact H.
Defined.

(** X3: SERVER_ID of the environment has precedence over the command line:
    when it is set, even to the empty string, the argument is not looked
    at; so outside test mode an empty SERVER_ID makes the script exit
    whatever identity the command line gives. *)
Theorem empty_env_identity_exits (env : gmap string string) (argv : list string) :
  env !! "SERVER_ID" = Some "" ->
  TEST_MODE env argv = false ->
  SERVER_ID env argv = Some ""
  /\ start env argv
     = Exit 1 "❌ Set SERVER_ID in .env or run: bun run sendPgmetrics.ts <server_id>".
Proof.
  intros He Ht.
  assert (Hs : SERVER_ID env argv = Some "") by (unfold SERVER_ID; now rewrite He).
  split; [exact Hs|].
  unfold start. rewrite Ht, Hs. reflexivity.
Qed.

Lemma empty_env_identity_exits_witness :
  start (<["SERVER_ID" := ""]> ∅) ["bun"; "sendPgmetrics.ts"; "srv1"]
  = Exit 1 "❌ Set SERVER_ID in .env or run: bun run sendPgmetrics.ts <server_id>".
Proof.
  apply (empty_env_identity_exits (<["SERVER_ID" := ""]> ∅)
           ["bun"; "sendPgmetrics.ts"; "srv1"]); vm_compute; reflexivity.
Defined.

(** X4: in test mode no identity is needed: unless the empty-password
    check fires, the test block runs, and without any identity it runs
    under the placeholder "test". *)
Theorem test_mode_needs_no_identity (env : gmap string string) (argv : list string) :
  TEST_MODE env argv = true ->
  env !! "PG_PASSWORD" <> Some "" ->
  start env argv = RunTestMode (load env argv)
  /\ (SERVER_ID env argv = None -> cfg_serverId (load env argv) = "test").
Proof.
  intros Ht Hp. split.
  - unfold start. rewrite Ht. cbn [negb andb].
    destruct (Text.truthy (PGPASSWORD env)) eqn:E; [reflexivity|].
    apply empty_password_spec in E. contradiction.
  - intros Hs. cbn [load cfg_serverId]. now rewrite Hs.
Qed.

Lemma test_mode_needs_no_identity_witness :
  start ∅ ["bun"; "sendPgmetrics.ts"; "--test"]
  = RunTestMode (load ∅ ["bun"; "sendPgmetrics.ts"; "--test"]).
Proof.
  apply (test_mode_needs_no_identity ∅ ["bun"; "sendPgmetrics.ts"; "--test"]).
  - vm_compute. reflexivity.
  - vm_compute. discriminate.
Defined.

(** ** The collector's command line and environment *)

Lemma trimEnd_idempotent (s : string) : Text.trimEnd (Text.trimEnd s) = Text.trimEnd s.
Proof.
  induction s as [|c r IH]; [reflexivity|].
  cbn [Text.trimEnd].
  destruct (Text.is_ws c && Text.is_empty (Text.trimEnd r)) eqn:E; [reflexivity|].
  cbn [Text.trimEnd]. rewrite IH, E. reflexivity.
Qed.

Lemma trimStart_trimEnd (s : string) :
  Text.trimStart (Text.trimEnd (Text.trimStart s)) = Text.trimEnd (Text.trimStart s).
Proof.
  induction s as [|c r IH]; [reflexivity|].
  cbn [Text.trimStart]. destruct (Text.is_ws c) eqn:E; [exact IH|].
  cbn [Text.trimEnd]. rewrite E. cbn [andb Text.trimStart]. now rewrite E.
Qed.

Lemma trim_idempotent (s : string) : Text.trim (Text.trim s) = Text.trim s.
Proof.
  unfold Text.trim. rewrite trimStart_trimEnd. apply trimEnd_idempotent.
Qed.

Lemma lower_ascii_idempotent (c : ascii) :
  Text.lower_ascii (Text.lower_ascii c) = Text.lower_ascii c.
Proof. destruct c as [[] [] [] [] [] [] [] []]; reflexivity. Qed.

Lemma toLowerCase_idempotent (s : string) :
  Text.toLowerCase (Text.toLowerCase s) = Text.toLowerCase s.
Proof.
  induction s as [|c r IH]; [reflexivity|].
  cbn [Text.toLowerCase]. now rewrite lower_ascii_idempotent, IH.
Qed.

Lemma lower_trimStart (s : string) :
  Text.toLowerCase s = s -> Text.toLowerCase (Text.trimStart s) = Text.trimStart s.
Proof.
  induction s as [|c r IH]; [reflexivity|].
  intros H. cbn [Text.trimStart]. destruct (Text.is_ws c); [|exact H].
  apply IH. cbn [Text.toLowerCase] in H. congruence.
Qed.

Lemma lower_trimEnd (s : string) :
  Text.toLowerCase s = s -> Text.toLowerCase (Text.trimEnd s) = Text.trimEnd s.
Proof.
  induction s as [|c r IH]; [reflexivity|].
  intros H. cbn [Text.toLowerCase] in H. injection H as Hc Hr.
  cbn [Text.trimEnd].
  destruct (Text.is_ws c && Text.is_empty (Text.trimEnd r)); [reflexivity|].
  cbn [Text.toLowerCase]. now rewrite Hc, IH.
Qed.

Lemma lower_split (sep : ascii) (s e : string) :
  Text.toLowerCase s = s -> In e (Text.split sep s) -> Text.toLowerCase e = e.
Proof.
  revert e. induction s as [|c r IH]; intros e H Hin.
  - destruct Hin as [<-|[]]. reflexivity.
  - cbn [Text.toLowerCase] in H. injection H as Hc Hr.
    cbn [Text.split] in Hin. destruct (Ascii.eqb c sep).
    + destruct Hin as [<-|Hin]; [reflexivity|now apply IH].
    + destruct (Text.split sep r) as [|h t] eqn:E.
      * destruct Hin as [<-|[]]. cbn [Text.toLowerCase]. now rewrite Hc.
      * destruct Hin as [<-|Hin].
        -- cbn [Text.toLowerCase]. rewrite Hc. f_equal. apply IH; [exact Hr|now left].
        -- apply IH; [exact Hr|now right].
Qed.

(** X5: every database name put on the command line is non-empty, has no
    white space around it, and is in lower case (the whole setting was
    lower-cased when it was loaded). *)
Theorem database_names_normalised (env : gmap string string) (argv : list string)
    (d : string) :
  In d (dbs (load env argv)) ->
  d <> "" /\ Text.trim d = d /\ Text.toLowerCase d = d.
Proof.
  intros Hin. apply dbs_spec in Hin as [Hne (e & He & ->)].
  split; [exact Hne|]. split; [apply trim_idempotent|].
  unfold Text.trim. apply lower_trimEnd, lower_trimStart.
  apply (lower_split "," (cfg_PG_DATABASES (load env argv))); [|exact He].
  cbn [load cfg_PG_DATABASES]. unfold PG_DATABASES. apply toLowerCase_idempotent.
Qed.

Lemma database_names_normalised_witness :
  "sales" <> "" /\ Text.trim "sales" = "sales" /\ Text.toLowerCase "sales" = "sales".
Proof.
  apply (database_names_normalised (<["PG_DATABASES" := " Sales, hr ,,ops "]> ∅) []
           "sales").
  vm_compute. auto.
Defined.

(** X6: the password setting never changes the command line: whatever
    PG_PASSWORD is, the collector gets the same arguments. *)
Theorem password_not_on_command_line (env : gmap string string) (argv : list string)
    (password tmpFile : string) :
  pgmetrics_args (load (<["PG_PASSWORD" := password]> env) argv) tmpFile
  = pgmetrics_args (load env argv) tmpFile.
Proof.
  unfold pgmetrics_args, base_args, dbs. cbn [load cfg_PGHOST cfg_PGPORT cfg_PGUSER
    cfg_PG_TIMEOUT cfg_PG_OMIT cfg_PG_SQL_LENGTH cfg_PG_STATEMENTS_LIMIT
    cfg_ALL_DBS cfg_PG_DATABASES].
  unfold ALL_DBS, PG_DATABASES, PGHOST, PGPORT, PGUSER, PG_TIMEOUT, PG_OMIT,
    PG_SQL_LENGTH, PG_STATEMENTS_LIMIT, env_or.
  rewrite !lookup_insert_ne by discriminate. reflexivity.
Qed.

(** X7: the child's environment is the script's own, except that PGUSER,
    PGHOST and PGPORT are the settings, and that PGPASSWORD is the password
    when this one is not empty; with an empty password, PGPASSWORD is left
    as the script inherited it. *)
Theorem child_environment (cfg : config) :
  pgmetrics_env cfg !! "PGUSER" = Some (cfg_PGUSER cfg)
  /\ pgmetrics_env cfg !! "PGHOST" = Some (cfg_PGHOST cfg)
  /\ pgmetrics_env cfg !! "PGPORT" = Some (cfg_PGPORT cfg)
  /\ pgmetrics_env cfg !! "PGPASSWORD"
     = (if Text.truthy (cfg_PGPASSWORD cfg) then Some (cfg_PGPASSWORD cfg)
        else cfg_env cfg !! "PGPASSWORD")
  /\ forall k, k <> "PGUSER" -> k <> "PGHOST" -> k <> "PGPORT" -> k <> "PGPASSWORD" ->
       pgmetrics_env cfg !! k = cfg_env cfg !! k.
Proof.
  unfold pgmetrics_env.
  destruct (Text.truthy (cfg_PGPASSWORD cfg)); repeat split.
  all: try (intros k H1 H2 H3 H4).
  all: repeat first [ rewrite lookup_insert_eq | rewrite lookup_insert_ne by congruence ].
  all: reflexivity.
Qed.

Lemma indexOf_split (x : string) (args : list string) (i : nat) :
  indexOf x args = Some i ->
  exists pre post,
    args = (pre ++ x :: post)%list /\ ~ In x pre /\ length pre = i.
Proof.
  revert i. induction args as [|a rest IH]; intros i H; [discriminate H|].
  cbn [indexOf] in H. destruct (String.eqb_spec a x) as [->|Hne].
  - injection H as <-. exists [], rest. repeat split. intros [].
  - destruct (indexOf x rest) as [j|]; [|discriminate H].
    injection H as <-. destruct (IH j eq_refl) as (pre & post & -> & Hn & Hl).
    exists (a :: pre), post. repeat split.
    + intros [E|E]; [congruence|contradiction].
    + cbn. now rewrite Hl.
Qed.

Lemma indexOf_present (x : string) (args : list string) :
  In x args -> exists i, indexOf x args = Some i.
Proof.
  induction args as [|a rest IH]; intros H; [destruct H|].
  cbn [indexOf]. destruct (String.eqb_spec a x) as [->|Hne]; [eauto|].
  destruct H as [E|H]; [contradiction|].
  destruct (IH H) as [i ->]. eauto.
Qed.

(** X8: with all databases selected, --all-dbs is put right after the
    first argument that reads -w, the rest of the list unchanged; when
    neither the host, the port nor the user reads -w, this is the -w flag
    itself and the list starts
    -h host -p port -U user -w --all-dbs --timeout ... *)
Theorem all_dbs_flag_follows_w (cfg : config) (tmpFile : string) :
  cfg_ALL_DBS cfg = true ->
  (exists pre post,
      base_args cfg tmpFile = (pre ++ "-w" :: post)%list
      /\ ~ In "-w" pre
      /\ pgmetrics_args cfg tmpFile = (pre ++ "-w" :: "--all-dbs" :: post)%list)
  /\ (cfg_PGHOST cfg <> "-w" -> cfg_PGPORT cfg <> "-w" -> cfg_PGUSER cfg <> "-w" ->
      pgmetrics_args cfg tmpFile
      = [ "-h"; cfg_PGHOST cfg; "-p"; cfg_PGPORT cfg; "-U"; cfg_PGUSER cfg;
          "-w"; "--all-dbs";
          "--timeout"; cfg_PG_TIMEOUT cfg; "--omit"; cfg_PG_OMIT cfg;
          "--sql-length"; cfg_PG_SQL_LENGTH cfg;
          "--statements-limit"; cfg_PG_STATEMENTS_LIMIT cfg;
          "-f"; "json"; "-o"; tmpFile ]).
Proof.
  intros Hall. unfold pgmetrics_args. rewrite Hall. split.
  - destruct (indexOf_present "-w" (base_args cfg tmpFile)) as [i Hi].
    { unfold base_args. cbn. auto 10. }
    rewrite Hi.
    destruct (indexOf_split _ _ _ Hi) as (pre & post & E & Hn & Hl).
    exists pre, post. split; [exact E|]. split; [exact Hn|].
    unfold splice_insert. rewrite E, <- Hl.
    replace (S (length pre)) with (length (pre ++ ["-w"])%list)
      by (rewrite length_app; cbn; lia).
    replace (pre ++ "-w" :: post)%list with ((pre ++ ["-w"]) ++ post)%list
      by (now rewrite <- app_assoc).
    rewrite take_app_length, drop_app_length, <- app_assoc. reflexivity.
  - intros Hh Hp Hu. unfold base_args. cbn [indexOf].
    repeat match goal with
    | |- context [String.eqb ?a ?b] =>
        destruct (String.eqb_spec a b); try congruence; try discriminate
    end.
    reflexivity.
Qed.

Lemma all_dbs_flag_follows_w_witness :
  pgmetrics_args srv1 "/tmp/out.json"
  = [ "-h"; "/var/run/postgresql"; "-p"; "5432"; "-U"; "postgres";
      "-w"; "--all-dbs"; "--timeout"; "60"; "--omit"; "log";
      "--sql-length"; "10000"; "--statements-limit"; "10000";
      "-f"; "json"; "-o"; "/tmp/out.json" ].
Proof.
  destruct (all_dbs_flag_follows_w srv1 "/tmp/out.json") as [_ H];
    [vm_compute; reflexivity|].
  rewrite H; [vm_compute; reflexivity|vm_compute; discriminate..].
Defined.

(** ** The upload handshake *)

(** X9: [getUploadUrl] hands out a target exactly when the answer has a
    status in 200..299 and a JSON body with a [url] property that is not
    null; the target is then that property. On every other answer (another
    status, a body that is not JSON or has no [url], a network failure) it
    returns [false]. *)
Theorem getUploadUrl_result (P : Platform) (cfg : config) (size : Z) (w : world)
    (v : JSON) :
  fst (getUploadUrl P cfg size w) = Return (Some v)
  <-> exists status data,
        fetch_answer P (tick w) (upload_url_request cfg size)
          = Response status (Return data)
        /\ status_ok status = true
        /\ get_prop_opt data "url" = Some v
        /\ v <> JNull.
Proof.
  unfold getUploadUrl. fold (upload_url_request cfg size).
  unfold get_prop. run.
  all: cbn [fst]; split;
    [ intros H; try discriminate H
    | intros (st & d & Ea & Hok & Hu & Hn); simplify_eq ].
  all: try (simplify_eq; do 2 eexists; split; [reflexivity|];
            split; [now apply negb_false_iff|]; split; [eassumption|discriminate]).
  all: try (cbn [get_prop_opt catch_default] in *; congruence).
  all: try (exfalso; rewrite ?Hok in *; cbn [negb] in *; status_facts;
            first [lia | congruence]).
Qed.

(** X10: [uploadFile] makes one PUT of the body to the target and returns
    whether the answer has a status in 200..299; a network failure gives
    [false]; it never throws and leaves the files alone. *)
Theorem uploadFile_result (P : Platform) (url : JSON) (body : list Z) (w : world) :
  exists w' logs,
    uploadFile P url body w
    = (Return (admits (fetch_answer P (tick w) (put_request url body))), w')
    /\ fs w' = fs w
    /\ trace w' = (trace w ++ EFetch (put_request url body) :: map ELog logs)%list.
Proof.
  unfold uploadFile. fold (put_request url body).
  run.
  all: do 2 eexists; split; [reflexivity|]; split; [reflexivity|]; flat_trace.
  all: some_logs.
Qed.


(** ** The storage key and bucket, and the reported size *)

Lemma take_until_prefix (stop : ascii -> bool) (s : string) :
  s = Url.take_until stop s ++ Url.drop_until stop s.
Proof.
  induction s as [|c r IH]; [reflexivity|].
  cbn [Url.take_until Url.drop_until]. destruct (stop c); [reflexivity|].
  rewrite IH at 1. reflexivity.
Qed.

Lemma take_until_clean (stop : ascii -> bool) (s : string) (c : ascii) :
  In c (list_ascii_of_string (Url.take_until stop s)) -> stop c = false.
Proof.
  induction s as [|a r IH]; [intros []|].
  cbn [Url.take_until]. destruct (stop a) eqn:E; [intros []|].
  cbn. intros [<-|H]; [exact E|now apply IH].
Qed.

Lemma take_until_sub (stop : ascii -> bool) (s : string) (c : ascii) :
  In c (list_ascii_of_string (Url.take_until stop s)) -> In c (list_ascii_of_string s).
Proof.
  induction s as [|a r IH]; [intros []|].
  cbn [Url.take_until]. destruct (stop a); [intros []|].
  cbn. intros [<-|H]; [now left|right; now apply IH].
Qed.

Lemma drop_until_head (stop : ascii -> bool) (s : string) :
  Url.drop_until stop s = ""
  \/ exists c r, Url.drop_until stop s = String c r /\ stop c = true.
Proof.
  induction s as [|a r IH]; [now left|].
  cbn [Url.drop_until]. destruct (stop a) eqn:E; [right; eauto|exact IH].
Qed.

Lemma split_clean (sep : ascii) (s e : string) (c : ascii) :
  In e (Text.split sep s) -> In c (list_ascii_of_string e) -> c <> sep.
Proof.
  revert e. induction s as [|a r IH]; intros e He Hc.
  - destruct He as [<-|[]]. destruct Hc.
  - cbn [Text.split] in He. destruct (Ascii.eqb_spec a sep) as [->|Hne].
    + destruct He as [<-|He]; [destruct Hc|now apply (IH e)].
    + destruct (Text.split sep r) as [|h t] eqn:E.
      * destruct He as [<-|[]]. destruct Hc as [<-|[]]. exact Hne.
      * destruct He as [<-|He].
        -- destruct Hc as [<-|Hc]; [exact Hne|]. apply (IH h); [now left|exact Hc].
        -- apply (IH e); [now right|exact Hc].
Qed.

(** X12: the storage key is the longest prefix without a dot of the path
    less its first character: the path continues after the key with a dot
    or ends there. The bucket contains neither a dot nor a slash. *)
Theorem key_and_bucket_shape (pathname url : string) :
  (exists rest,
      Text.substring1 pathname = finishedUpload_key pathname ++ rest
      /\ (rest = "" \/ exists r, rest = String "." r))
  /\ (forall c, In c (list_ascii_of_string (finishedUpload_key pathname)) -> c <> "."%char)
  /\ (forall c, In c (list_ascii_of_string (finishedUpload_bucket url)) ->
        c <> "."%char /\ c <> "/"%char).
Proof.
  rewrite finishedUpload_key_prefix. split; [|split].
  - exists (Url.drop_until (fun c => Ascii.eqb c ".") (Text.substring1 pathname)).
    split; [apply take_until_prefix|].
    destruct (drop_until_head (fun c => Ascii.eqb c ".") (Text.substring1 pathname))
      as [H|(c & r & H & Hc)]; [now left|].
    right. exists r. rewrite H. apply Ascii.eqb_eq in Hc. now subst c.
  - intros c Hc Heq. apply take_until_clean in Hc. subst c. discriminate Hc.
  - intros c Hc. rewrite finishedUpload_bucket_prefix in Hc.
    destruct (Text.split "/" url !! 2%nat) as [host|] eqn:Eh; [|destruct Hc].
    split.
    + intros ->. apply take_until_clean in Hc. discriminate Hc.
    + apply list_elem_of_lookup_2, list_elem_of_In in Eh.
      apply (split_clean "/" url host c Eh). now apply take_until_sub in Hc.
Qed.

Lemma byteLength_decode_bounds (bs : list byte) :
  Z.of_nat (length bs) <= Utf8.byteLength (Utf8.decode bs) <= 3 * Z.of_nat (length bs).
Proof.
  remember (length bs) as n eqn:Hn.
  assert (Hle : (length bs <= n)%nat) by lia.
  rewrite Hn. clear Hn. revert bs Hle.
  induction n as [|n IH]; intros bs Hle.
  - destruct bs; [cbn; lia|simpl in Hle; lia].
  - destruct bs as [|b0 r0]; [cbn; lia|].
    cbn [Utf8.decode].
    set (x0 := Utf8.byteZ b0) in *.
    pose proof (lo2_bounds x0). pose proof (hi2_bounds x0).
    assert (x0 = 0xE0 -> 0xA0 <= Utf8.lo2 x0)
      by (intros ->; unfold Utf8.lo2; simpl; lia).
    assert (x0 = 0xF0 -> 0x90 <= Utf8.lo2 x0)
      by (intros ->; unfold Utf8.lo2; simpl; lia).
    repeat match goal with
           | |- context [match ?l with [] => _ | _ :: _ => _ end] =>
               is_var l; destruct l
           | |- context [if ?c then _ else _] => destruct c eqn:?
           end.
    all: repeat match goal with
                | |- context [Utf8.decode ?l] =>
                    lazymatch goal with
                    | _ : _ <= Utf8.byteLength (Utf8.decode l) <= _ |- _ => fail
                    | _ => pose proof (IH l ltac:(simpl in Hle |- *; lia))
                    end
                end.
    all: repeat utf8_case.
    all: cbn [Utf8.byteLength length] in *.
    all: unfold Utf8.encoded_length, Utf8.REPLACEMENT.
    all: repeat match goal with
                | |- context [if ?a <=? ?b then _ else _] => destruct (Z.leb_spec a b)
                end.
    all: lia.
Qed.

(** X13: when the snapshot file is there, the rest of the iteration never
    throws: the file is read and removed, and the size that is logged and
    sent with the request for an upload target lies between the number of
    bytes of the file and three times that number (each ill-formed byte
    sequence is counted as the three bytes of U+FFFD). *)
Theorem reported_size_bounds (P : Platform) (cfg : config) (tmpFile : string)
    (w : world) (bytes : list byte) :
  fs w !! tmpFile = Some bytes ->
  exists size w' seg,
    send_snapshot P cfg tmpFile w = (Return tt, w')
    /\ trace w'
       = (trace w
          ++ [EReadFile tmpFile; EUnlink tmpFile;
              ELog [Txt "Size:"; SizeMB size; Txt "MB for server_id:";
                    Txt (cfg_serverId cfg)];
              EFetch (upload_url_request cfg size)]
          ++ seg)%list
    /\ Z.of_nat (length bytes) <= size <= 3 * Z.of_nat (length bytes)
    /\ fs w' = delete tmpFile (fs w).
Proof.
  intros Hf. exists (Utf8.byteLength (Utf8.decode bytes)).
  rewrite (send_snapshot_read P cfg tmpFile w bytes Hf).
  cbn zeta. unfold bind at 1.
  match goal with |- context [getUploadUrl P cfg ?s ?x] =>
    destruct (getUploadUrl_run P cfg s x) as (url & w3 & l3 & E3 & F3 & T3) end.
  rewrite E3.
  destruct (truthy url) eqn:Ht; cbn [negb].
  - unfold bind at 1. unfold console_log at 1, emit at 1.
    unfold bind at 1.
    match goal with |- context [uploadFile P ?u ?b ?x] =>
      destruct (uploadFile_run P u b x) as (up & w4 & l4 & E4 & F4 & T4) end.
    rewrite E4.
    unfold bind at 1. unfold console_log at 1, emit at 1.
    unfold bind at 1.
    match goal with |- context [finishedUpload P cfg ?u ?x] =>
      destruct (finishedUpload_run P cfg u x) as (fin & w5 & l5 & E5 & F5 & T5) end.
    rewrite E5.
    unfold bind, console_log, sleep, emit. cbn [fs tick trace] in *.
    eexists _, (map ELog l3 ++ _ :: _ :: map ELog l4 ++ _ :: l5 ++ [_; _])%list.
    split; [reflexivity|]. cbn [fs trace]. split; [|split].
    + rewrite T5, T4, T3. cbn [after_read trace].
      repeat first [rewrite <- app_assoc | progress cbn [app]]. reflexivity.
    + apply byteLength_decode_bounds.
    + rewrite F5, F4, F3. reflexivity.
  - unfold sleep, emit. cbn [fs tick trace].
    eexists _, (map ELog l3 ++ [_])%list. split; [reflexivity|].
    cbn [fs trace]. split; [|split].
    + rewrite T3. cbn [after_read trace].
      repeat first [rewrite <- app_assoc | progress cbn [app]]. reflexivity.
    + apply byteLength_decode_bounds.
    + rewrite F3. reflexivity.
Qed.

Lemma reported_size_bounds_witness :
  let P := scripted (service "https://bucket1.storage.example/abc123.json?sig=x")
             (exited 0 "") None in
  let w := {| fs := {[ "/tmp/snapshot.json" := [Byte.xff; Byte.x7b] ]};
              tick := 0; trace := [] |} in
  exists size w' seg,
    send_snapshot P srv1 "/tmp/snapshot.json" w = (Return tt, w')
    /\ trace w'
       = (trace w
          ++ [EReadFile "/tmp/snapshot.json"; EUnlink "/tmp/snapshot.json";
              ELog [Txt "Size:"; SizeMB size; Txt "MB for server_id:"; Txt "srv1"];
              EFetch (upload_url_request srv1 size)]
          ++ seg)%list
    /\ 2 <= size <= 6
    /\ fs w' = delete "/tmp/snapshot.json" (fs w).
Proof.
  intros P w.
  exact (reported_size_bounds P srv1 "/tmp/snapshot.json" w [Byte.xff; Byte.x7b] eq_refl).
Defined.

(** ** The order of the steps *)

Lemma steps_app (a b : list event) : steps (a ++ b) = (steps a ++ steps b)%list.
Proof.
  induction a as [|e a IH]; [reflexivity|].
  destruct e; cbn [app steps]; rewrite IH; reflexivity.
Qed.

Lemma steps_logs (logs : list (list logpart)) : steps (map ELog logs) = [].
Proof. induction logs as [|l logs IH]; [reflexivity|exact IH]. Qed.

Lemma step_of_admission (cfg : config) :
  step_of_request (admission_request cfg) = SAdmission.
Proof. reflexivity. Qed.

Lemma step_of_target (cfg : config) (size : Z) :
  step_of_request (upload_url_request cfg size) = STarget.
Proof. reflexivity. Qed.

Lemma step_of_put (url : JSON) (body : list Z) :
  step_of_request (put_request url body) = STransfer.
Proof. reflexivity. Qed.

Lemma step_of_finished (cfg : config) (key bucket : string) :
  step_of_request (finished_request cfg key bucket) = SConfirm.
Proof. reflexivity. Qed.

(** The confirmation makes its one request, or none when the target does
    not parse. *)
Lemma finishedUpload_steps (P : Platform) (cfg : config) (url : JSON) (w : world) :
  exists finished w' seg,
    finishedUpload P cfg url w = (Return finished, w')
    /\ fs w' = fs w
    /\ trace w' = (trace w ++ seg)%list
    /\ (steps seg = [] \/ steps seg = [SConfirm]).
Proof.
  unfold finishedUpload.
  run.
  all: do 3 eexists; split; [reflexivity|]; split; [reflexivity|]; flat_trace.
  all: split; [reflexivity|]; cbn [steps]; auto.
Qed.

Ltac read_steps :=
  repeat first [rewrite steps_app | rewrite steps_logs | progress cbn [app steps]].

(** Every iteration returns and follows one of the six orders. *)
Lemma iteration_follows_a_path (P : Platform) (cfg : config) (w : world) :
  exists w' seg wait,
    iteration P cfg w = (Return tt, w')
    /\ trace w' = (trace w ++ seg)%list
    /\ In (steps seg) (iteration_paths wait).
Proof.
  destruct (shouldSend_run P cfg w) as (b & w1 & Hs & _ & Hyes & Hno).
  destruct (admits (fetch_answer P (tick w) (admission_request cfg))).
  2: { destruct Hno as [-> (logs & ms & Ht & _)]; [reflexivity|].
       rewrite (iteration_denied P cfg w w1 Hs).
       eexists _, _, ms. split; [reflexivity|]. cbn [trace]. split.
       - rewrite Ht, <- app_assoc. reflexivity.
       - read_steps. cbn. auto. }
  destruct Hyes as [-> Ht]; [reflexivity|].
  destruct (spawn_effect P (tick (collecting P cfg w1))
              (pgmetrics_args cfg (tmpFile_of P cfg w1)) (pgmetrics_env cfg) (fs w1))
    as [r files] eqn:Hc.
  destruct (decide (sp_status r = Some 0)) as [H0|H0].
  2: { rewrite (iteration_collection_fails P cfg w w1 r files Hs Hc H0).
       eexists _, _, (Num 0). split; [reflexivity|]. cbn [trace collecting]. split.
       - rewrite Ht. repeat first [rewrite <- app_assoc | progress cbn [app]].
         reflexivity.
       - read_steps. cbn. auto. }
  rewrite (iteration_admitted P cfg w w1 Hs).
  unfold try_catch. unfold bind at 1.
  rewrite (collect_succeeds P cfg _ (collecting P cfg w1) r files Hc H0).
  destruct (files !! tmpFile_of P cfg w1) as [bytes|] eqn:Hf.
  2: { match goal with |- context [send_snapshot P cfg ?f ?x] =>
         destruct (send_snapshot_missing P cfg f x) as (e & E) end.
       { exact Hf. }
       rewrite E. unfold iteration_catch, bind, console_log, sleep, emit.
       cbn [fs tick trace].
       eexists _, _, (Num 0). split; [reflexivity|]. cbn [trace collecting]. split.
       - rewrite Ht. repeat first [rewrite <- app_assoc | progress cbn [app]].
         reflexivity.
       - read_steps. cbn. auto. }
  rewrite (send_snapshot_read P cfg _ _ bytes) by exact Hf.
  cbn zeta. unfold bind at 1.
  match goal with |- context [getUploadUrl P cfg ?s ?x] =>
    destruct (getUploadUrl_run P cfg s x) as (url & w3 & l3 & E3 & F3 & T3) end.
  rewrite E3.
  destruct (truthy url) eqn:Hu; cbn [negb].
  2: { unfold sleep, emit. cbn [fs tick trace].
       eexists _, _, (Num 0). split; [reflexivity|]. cbn [trace]. split.
       - rewrite T3. cbn [after_read trace collecting]. rewrite Ht.
         repeat first [rewrite <- app_assoc | progress cbn [app]]. reflexivity.
       - read_steps. cbn. auto 10. }
  unfold bind at 1. unfold console_log at 1, emit at 1.
  unfold bind at 1.
  match goal with |- context [uploadFile P ?u ?b ?x] =>
    destruct (uploadFile_run P u b x) as (up & w4 & l4 & E4 & F4 & T4) end.
  rewrite E4.
  unfold bind at 1. unfold console_log at 1, emit at 1.
  unfold bind at 1.
  match goal with |- context [finishedUpload P cfg ?u ?x] =>
    destruct (finishedUpload_steps P cfg u x) as (fin & w5 & l5 & E5 & F5 & T5 & S5) end.
  rewrite E5.
  unfold bind, console_log, sleep, emit. cbn [fs tick trace] in *.
  eexists _, _, (Num 0). split; [reflexivity|]. cbn [trace]. split.
  - rewrite T5, T4, T3. cbn [after_read trace collecting]. rewrite Ht.
    repeat first [rewrite <- app_assoc | progress cbn [app]]. reflexivity.
  - read_steps. destruct S5 as [-> | ->]; cbn; auto 10.
Qed.

(** X14: every iteration returns, and its actions, console lines left out,
    follow one of six orders: admission denied (the check's wait, then
    250 ms); collection failed (start, removal, 1000 ms); collection
    without a file (start, read attempt, 1000 ms); no upload target; a
    target that does not parse (transfer, no confirmation request); the
    whole handshake. Nothing is collected before admission, nothing is
    requested before the file is read and removed, and every order ends
    with a sleep. *)
Theorem iteration_protocol (P : Platform) (cfg : config) (w : world) :
  exists w' seg wait,
    iteration P cfg w = (Return tt, w')
    /\ trace w' = (trace w ++ seg)%list
    /\ In (steps seg) (iteration_paths wait).
Proof. exact (iteration_follows_a_path P cfg w). Qed.

Lemma path_counts (wait : jsnum) (path : list step) :
  In path (iteration_paths wait) ->
  length (List.filter is_admission_step path) = 1%nat
  /\ (length (List.filter is_collect_step path) <= 1)%nat.
Proof.
  unfold iteration_paths. cbn [In].
  intros [<-|[<-|[<-|[<-|[<-|[<-|[]]]]]]]; cbn; lia.
Qed.

(** X15: any number of turns of the loop returns, never throwing; in [n]
    turns exactly [n] admission requests are made and the collector is
    started at most [n] times. *)
Theorem loop_admissions (P : Platform) (cfg : config) (n : nat) (w : world) :
  exists w' seg,
    loop P cfg n w = (Return tt, w')
    /\ trace w' = (trace w ++ seg)%list
    /\ length (List.filter is_admission_step (steps seg)) = n
    /\ (length (List.filter is_collect_step (steps seg)) <= n)%nat.
Proof.
  revert w. induction n as [|n IH]; intros w; cbn [loop].
  - exists w, []. unfold ret. rewrite app_nil_r. cbn. repeat split; lia.
  - destruct (iteration_follows_a_path P cfg w) as (w1 & seg1 & wait & E1 & T1 & Hp).
    destruct (IH w1) as (w2 & seg2 & E2 & T2 & Ha & Hc).
    destruct (path_counts wait _ Hp) as [Ha1 Hc1].
    exists w2, (seg1 ++ seg2)%list. unfold bind. rewrite E1. split; [exact E2|].
    split; [rewrite T2, T1, <- app_assoc; reflexivity|].
    rewrite steps_app, !List.filter_app, !length_app. split; lia.
Qed.

(** ** What an iteration does to the files *)

(** X16: the script writes no file by itself. A denied iteration leaves
    the files as they are; an admitted one leaves what the collector left,
    less the snapshot file. *)
Theorem iteration_files (P : Platform) (cfg : config) (w : world) :
  exists b w1 w',
    shouldSend P cfg w = (Return b, w1)
    /\ iteration P cfg w = (Return tt, w')
    /\ fs w'
       = if b
         then delete (tmpFile_of P cfg w1)
                (snd (spawn_effect P (tick (collecting P cfg w1))
                        (pgmetrics_args cfg (tmpFile_of P cfg w1))
                        (pgmetrics_env cfg) (fs w)))
         else fs w.
Proof.
  destruct (shouldSend_run P cfg w) as (b & w1 & Hs & Hfs & _ & _).
  exists b, w1. destruct b.
  - destruct (spawn_effect P (tick (collecting P cfg w1))
                (pgmetrics_args cfg (tmpFile_of P cfg w1)) (pgmetrics_env cfg) (fs w))
      as [r files] eqn:Hc.
    rewrite <- Hfs in Hc. cbn [snd].
    destruct (decide (sp_status r = Some 0)) as [H0|H0].
    2: { rewrite (iteration_collection_fails P cfg w w1 r files Hs Hc H0).
         eexists. split; [exact Hs|]. split; reflexivity. }
    destruct (files !! tmpFile_of P cfg w1) as [bytes|] eqn:Hf.
    + destruct (iteration_collected P cfg w w1 r files bytes Hs Hc H0 Hf)
        as (w' & seg & E & _ & F).
      exists w'. split; [exact Hs|]. split; [exact E|exact F].
    + rewrite (iteration_admitted P cfg w w1 Hs).
      unfold try_catch. unfold bind at 1.
      rewrite (collect_succeeds P cfg _ (collecting P cfg w1) r files Hc H0).
      match goal with |- context [send_snapshot P cfg ?f ?x] =>
        destruct (send_snapshot_missing P cfg f x) as (e & E) end.
      { exact Hf. }
      rewrite E. unfold iteration_catch, bind, console_log, sleep, emit.
      cbn [fs tick trace].
      eexists. split; [exact Hs|]. split; [reflexivity|]. cbn [fs].
      symmetry. now apply delete_id.
  - rewrite (iteration_denied P cfg w w1 Hs).
    eexists. split; [exact Hs|]. split; [reflexivity|exact Hfs].
Qed.

(** ** The branches of the admission check *)

(** X18: a body that is the JSON value null makes every denial take the
    default wait: reading a property of null throws inside the [try], the
    [catch] block logs the message of that TypeError (as long as the message
    is not itself JSON text) and waits 2500 ms, also for a 403 or a 404. *)
Theorem null_body_waits_default (P : Platform) (cfg : config) (w : world) (status : Z) :
  fetch_answer P (tick w) (admission_request cfg) = Response status (Return JNull) ->
  status_ok status = false ->
  (forall k, JSON_parse P (null_property_message P k) = None) ->
  exists k,
    shouldSend P cfg w
    = (Return false,
       {| fs := fs w; tick := S (S (S (tick w)));
          trace := trace w ++ [EFetch (admission_request cfg);
                               ELog [Txt "⛔ Pre-check failed: ";
                                     Txt (null_property_message P k);
                                     Txt ", waiting ... 2.5s"];
                               ESetTimeout (Num 2500)] |}).
Proof.
  intros Ha Hok Hp.
  unfold shouldSend, shouldSend_try, shouldSend_catch. fold (admission_request cfg).
  unfold_M. rewrite Ha. cbn beta iota zeta. rewrite Hok. cbn [negb catch_default get_prop].
  unfold throw.
  destruct (status =? 403); [|destruct (status =? 404); [|destruct (status =? 429)]].
  all: cbn [message]; rewrite Hp; eexists; flat_trace; reflexivity.
Qed.

Lemma null_body_waits_default_witness :
  let P := scripted (fun _ => Response 403 (Return JNull)) (exited 0 "") None in
  exists k,
    shouldSend P srv1 nothing_ran
    = (Return false,
       {| fs := ∅; tick := 3;
          trace := [EFetch (admission_request srv1);
                    ELog [Txt "⛔ Pre-check failed: ";
                          Txt (null_property_message P k);
                          Txt ", waiting ... 2.5s"];
                    ESetTimeout (Num 2500)] |}).
Proof.
  intros P.
  apply (null_body_waits_default P srv1 nothing_ran 403); reflexivity.
Defined.







(** ** Test mode *)

Lemma test_mode_banner_run (cfg : config) (w : world) :
  test_mode_banner cfg w
  = (Return tt, {| fs := fs w; tick := 12 + tick w;
                   trace := trace w ++ map ELog (test_mode_lines cfg) |}).
Proof.
  unfold test_mode_banner, bind, console_log, emit. cbn [fs tick trace].
  repeat first [rewrite <- app_assoc | progress cbn [app]]. reflexivity.
Qed.

Lemma runPgmetrics_run (P : Platform) (cfg : config) (tmpFile : string) (w : world)
    (r : spawn_result) (files : gmap string (list byte)) :
  spawn_effect P (tick w) (pgmetrics_args cfg tmpFile) (pgmetrics_env cfg) (fs w)
    = (r, files) ->
  runPgmetrics P cfg tmpFile w
  = (if decide (sp_status r = Some 0) then Return tt
     else Throw (MkError (failure_text r)),
     {| fs := files; tick := S (tick w);
        trace := trace w ++ [spawn_event cfg tmpFile] |}).
Proof.
  intros Hc. unfold runPgmetrics, bind, spawnSync, spawn_event. rewrite Hc.
  cbn beta iota zeta.
  destruct (decide (sp_status r = Some 0)) as [E|E].
  - rewrite E. reflexivity.
  - destruct (sp_status r) as [[| |]|]; try reflexivity. congruence.
Qed.

(** X21: test mode never contacts the service: it starts the collector
    once, reads and removes the file, and makes no request. It exits with
    status 0 when the collector exited with status 0 and its file is there;
    with status 1 and the collector's diagnostic on the error stream when
    the collector failed; with status 1 also when the file is missing. In
    every case the temporary file is not on disk afterwards. *)
Theorem test_mode_outcome (P : Platform) (cfg : config) (w : world)
    (r : spawn_result) (files : gmap string (list byte)) :
  let tmpFile := test_tmpFile_at P (Date_now P (12 + tick w)) in
  spawn_effect P (13 + tick w) (pgmetrics_args cfg tmpFile) (pgmetrics_env cfg) (fs w)
    = (r, files) ->
  exists e w' seg,
    test_mode P cfg w = (Return e, w')
    /\ trace w' = (trace (testing P cfg w) ++ seg)%list
    /\ fs w' = delete tmpFile files
    /\ (steps seg = [SCollect; SUnlink] \/ steps seg = [SCollect; SRead; SUnlink])
    /\ (sp_status r = Some 0 -> is_Some (files !! tmpFile) ->
        e = {| exit_code := 0; exit_stderr := None |})
    /\ (sp_status r <> Some 0 ->
        e = {| exit_code := 1;
               exit_stderr := Some [Txt "❌ pgmetrics failed:"; Txt (failure_text r)] |})
    /\ (files !! tmpFile = None -> exit_code e = 1).
Proof.
  intros tmpFile Hc.
  unfold test_mode. unfold bind at 1. rewrite test_mode_banner_run.
  unfold bind at 1. unfold now at 1. cbn [fs tick trace]. fold tmpFile.
  change {| fs := fs w; tick := S (12 + tick w);
            trace := trace w ++ map ELog (test_mode_lines cfg) |}
    with (testing P cfg w).
  unfold try_catch. unfold bind at 1. unfold test_mode_try. unfold bind at 1.
  rewrite (runPgmetrics_run P cfg tmpFile (testing P cfg w) r files Hc).
  destruct (decide (sp_status r = Some 0)) as [H0|H0].
  - unfold bind at 1. unfold readFileSync at 1. cbn [fs tick trace].
    destruct (files !! tmpFile) as [bytes|] eqn:Hf.
    + unfold bind at 1. unfold console_log at 1, emit at 1.
      unfold bind at 1. unfold console_log at 1, emit at 1.
      unfold bind at 1. unfold console_log at 1, emit at 1.
      unfold bind at 1. unfold unlinkSync at 1. cbn [fs tick trace]. rewrite Hf.
      unfold bind, console_log, emit, ret. cbn [fs tick trace].
      do 3 eexists. split; [reflexivity|]. cbn [fs trace]. split.
      { repeat first [rewrite <- app_assoc | progress cbn [app]]. reflexivity. }
      split; [reflexivity|]. split; [cbn; auto|].
      split; [reflexivity|]. split; [contradiction|discriminate].
    + unfold bind, unlinkSync, ret. cbn [fs tick trace]. rewrite Hf.
      do 3 eexists. split; [reflexivity|]. cbn [fs trace]. split.
      { repeat first [rewrite <- app_assoc | progress cbn [app]]. reflexivity. }
      split; [symmetry; now apply delete_id|]. split; [cbn; auto|].
      split; [intros _ [x Hx]; discriminate Hx|]. split; [contradiction|reflexivity].
  - unfold bind, unlinkSync, ret. cbn [fs tick trace message].
    destruct (files !! tmpFile) as [bytes|] eqn:Hf.
    + do 3 eexists. split; [reflexivity|]. cbn [fs trace]. split.
      { repeat first [rewrite <- app_assoc | progress cbn [app]]. reflexivity. }
      split; [reflexivity|]. split; [cbn; auto|].
      split; [contradiction|]. split; reflexivity.
    + do 3 eexists. split; [reflexivity|]. cbn [fs trace]. split.
      { repeat first [rewrite <- app_assoc | progress cbn [app]]. reflexivity. }
      split; [symmetry; now apply delete_id|]. split; [cbn; auto|].
      split; [contradiction|]. split; reflexivity.
Qed.

Lemma test_mode_outcome_witness :
  let P := scripted (fun _ => NetworkFailure (MkError "no network"))
             (exited 0 "") (Some [Byte.x7b; Byte.x7d]) in
  exists w',
    test_mode P srv1 nothing_ran
    = (Return {| exit_code := 0; exit_stderr := None |}, w')
    /\ fs w' = ∅.
Proof.
  intros P.
  destruct (test_mode_outcome P srv1 nothing_ran (exited 0 "")
              {[ "/tmp/pgmetrics_test_1012.json" := [Byte.x7b; Byte.x7d] ]})
    as (e & w' & seg & E & _ & F & _ & H0 & _).
  - reflexivity.
  - exists w'. rewrite (H0 eq_refl ltac:(eexists; reflexivity)) in E.
    split; [exact E|]. rewrite F. apply delete_singleton_eq.
Defined.
